(** * Dimension-Detector: the measurement pipeline of [measure_dimensions.py]

    A shallow embedding of [calculate_dimensions] and the properties of its
    reference search, target selection and unit conversion.

    Modelling choices.
    - A Python float is modelled by the rational it stands for.  Infinities,
      NaN and the exponent range (overflow, underflow) are outside the model.
      A float division by zero raises [ZeroDivisionError]; that is kept
      ([Py.div]).
    - The two divisions of the unit conversion and the band test are exact.
      The product of the area test ([cv2.contourArea(ref_contour) * 1.1]) and
      the arithmetic of the display size are rounded to the nearest binary64
      number ([Py.round]): there the rounding decides what the run does at
      values it can meet (areas of 110 and 100, an image of 1160 by 1044).
    - OpenCV is an external library.  [cv2.imread], the preprocessing chain
      ending in [cv2.findContours], [cv2.contourArea], [cv2.minAreaRect] and
      [cv2.boxPoints] are the fields of the class [OpenCV].
    - The Python function returns [None] on every path.  What a run did is
      recorded as the lines it printed and the effects it had, together with
      the way it ended: an early [return] after an error line, an uncaught
      exception, or the end of the function with the locals it computed. *)

From Stdlib Require Import List String Bool Arith Lia.
From Stdlib Require Import ZArith QArith Qminmax Qround Qpower Lqa.
From Stdlib Require Import Permutation Sorted.
Import ListNotations.

Local Open Scope Q_scope.

(** ** Python primitives *)

Module Py.

(** Strict comparison [x < y] on floats. *)
Definition ltb (x y : Q) : bool := negb (Qle_bool y x).

(** [min(a, b)]: the first argument unless the second is strictly smaller. *)
Definition min (a b : Q) : Q := if ltb b a then b else a.

(** [max(a, b)]: the first argument unless the second is strictly larger. *)
Definition max (a b : Q) : Q := if ltb a b then b else a.

Inductive Exception : Type :=
| ZeroDivisionError
| IndexError
| ValueError
| Cv2Error.

(** [a / b] on floats: raises [ZeroDivisionError] when [b] is zero. *)
Definition div (a b : Q) : option Q :=
  if Qeq_bool b 0 then None else Some (a / b).

(** Stable insertion of [x] in front of a list sorted by ascending key; only
    [<] on keys is used, as in [list.sort]. *)
Fixpoint insort {A : Type} (key : A -> Q) (x : A) (l : list A) : list A :=
  match l with
  | [] => [x]
  | y :: l' => if ltb (key y) (key x) then y :: insort key x l' else x :: l
  end.

Definition sort_ascending {A : Type} (key : A -> Q) (l : list A) : list A :=
  fold_right (insort key) [] l.

(** [sorted(l, key=key, reverse=reverse)].  The sort is stable; with
    [reverse=True] the list is reversed, sorted ascending and reversed
    again, so that elements with equal keys keep their original order. *)
Definition sorted {A : Type} (key : A -> Q) (reverse : bool) (l : list A)
  : list A :=
  if reverse then rev (sort_ascending key (rev l)) else sort_ascending key l.

(** [int(x)] on a float: truncation towards zero. *)
Definition int (x : Q) : Z := Z.quot (Qnum x) (Zpos (Qden x)).

(** The integer nearest to [q], the even one when two are as near. *)
Definition rne (q : Q) : Z :=
  let f := Qfloor q in
  match Qcompare (q - inject_Z f) (1 # 2) with
  | Lt => f
  | Gt => (f + 1)%Z
  | Eq => if Z.even f then f else (f + 1)%Z
  end.

(** For a positive [x], the [e] with [2 ^ e <= x < 2 ^ (e + 1)]. *)
Definition exponent (x : Q) : Z :=
  let e := (Z.log2 (Qnum x) - Z.log2 (Zpos (Qden x)))%Z in
  if Qle_bool (2 ^ e) x then e else (e - 1)%Z.

Definition round_pos (x : Q) : Q :=
  let s := (exponent x - 52)%Z in
  inject_Z (rne (x / 2 ^ s)) * 2 ^ s.

(** The binary64 number nearest to [x], ties to even: 53 significant bits.
    The exponent range is not modelled, so this is the float the machine
    computes as long as it neither overflows nor falls below 2 ^ -1022. *)
Definition round (x : Q) : Q :=
  match Qcompare x 0 with
  | Eq => 0
  | Gt => round_pos x
  | Lt => - round_pos (- x)
  end.

(** [a * b] on floats. *)
Definition mul (a b : Q) : Q := round (a * b).

(** A decimal literal of the source, such as [1.1]. *)
Definition lit (q : Q) : Q := round q.

(** [float(n)], also where an integer meets a float in an operation. *)
Definition float_of_int (n : Z) : Q := round (inject_Z n).

End Py.

(** ** OpenCV data *)

(** The value of [cv2.minAreaRect]: [((cx, cy), (w, h), angle)]. *)
Record RotatedRect : Type := mkRotatedRect {
  center : Q * Q;
  size : Q * Q;
  angle : Q
}.

(** ** What a run prints and does *)

Inductive Event {BoxPts : Type} : Type :=
| ErrorCouldNotRead (image_path : string)
| ErrorNotEnoughContours
| InfoReferenceFound (pixels_per_cm : Q)
| ErrorReferenceNotFound
| ResultDimensions (dim1 dim2 : Q)
| DrawReference (ref_box_pts : BoxPts)
| DrawTarget (target_box_pts : BoxPts)
| PutText (target_box_pts : BoxPts) (dim1 dim2 : Q)
| ImWrite
| InfoSaved
| LogLine (image_path : string) (dim1 dim2 : Q)
| ShowImage (width height : Z).
Arguments Event : clear implicits.

(** The three error lines after which the function returns early. *)
Inductive Failure : Type :=
| CouldNotRead
| NotEnoughContours
| ReferenceNotFound.

(** The locals of a run that reached the end of the function. *)
Record Measurement {Contour BoxPts : Type} : Type := mkMeasurement {
  ref_contour : Contour;
  ref_box_pts : BoxPts;
  pixels_per_cm : Q;
  target_contour : Contour;
  target_box_pts : BoxPts;
  dim1 : Q;
  dim2 : Q
}.
Arguments Measurement : clear implicits.
Arguments mkMeasurement {Contour BoxPts}.

Inductive Outcome {Contour BoxPts : Type} : Type :=
| Stopped (why : Failure)
| Raised (e : Py.Exception)
| Measured (m : Measurement Contour BoxPts).
Arguments Outcome : clear implicits.

Record Run {Contour BoxPts : Type} : Type := mkRun {
  printed : list (Event BoxPts);
  outcome : Outcome Contour BoxPts
}.
Arguments Run : clear implicits.
Arguments mkRun {Contour BoxPts}.

(** The state of [ref_contour], [ref_box_pts] and [pixels_per_cm] when the
    reference loop is left. *)
Inductive RefSearch {Contour BoxPts : Type} : Type :=
| RefFound (cnt : Contour) (box_pts : BoxPts) (ppc : Q)
| RefNone
| RefRaised (e : Py.Exception).
Arguments RefSearch : clear implicits.

(** ** The pipeline *)

(** The OpenCV calls of [calculate_dimensions], over the types they act on. *)
Class OpenCV (Image Contour BoxPts : Type) : Type := {
  (** [cv2.imread]: [None] when the file cannot be decoded. *)
  imread : string -> option Image;
  (** Grayscale, blur, Canny, closing and [cv2.findContours] with
      [RETR_EXTERNAL]. *)
  findContours : Image -> list Contour;
  contourArea : Contour -> Q;
  minAreaRect : Contour -> RotatedRect;
  boxPoints : RotatedRect -> BoxPts;
  (** [image.shape[:2]]: height and width. *)
  image_shape : Image -> Z * Z
}.

(** ** The display size

    The end of [calculate_dimensions]: an image taller than 900 pixels is
    resized before it is shown.  [h] and [w] are [image.shape[:2]]; the value
    is the (width, height) of [display_image], or [None] when [cv2.resize]
    raises because the new width is zero. *)

Definition max_display_height : Z := 900.

Definition display_size (h w : Z) : option (Z * Z) :=
  if (h >? max_display_height)%Z then
    let ratio := Py.round (Py.float_of_int max_display_height
                           / Py.float_of_int h) in
    let new_width := Py.int (Py.mul (Py.float_of_int w) ratio) in
    if (new_width <=? 0)%Z then None
    else Some (new_width, max_display_height)
  else Some (w, h).

Section Pipeline.

Context {Image Contour BoxPts : Type} {cv : OpenCV Image Contour BoxPts}.

(** The body of the [try] block: [max(w, h) / min(w, h)]. *)
Definition aspect_ratio (w h : Q) : option Q :=
  let pixel_width := Py.min w h in
  let pixel_height := Py.max w h in
  Py.div pixel_height pixel_width.

(** Step 4, the loop over the sorted contours. *)
Fixpoint find_reference (ref_object_width_cm : Q) (contours : list Contour)
  : RefSearch Contour BoxPts :=
  match contours with
  | [] => RefNone
  | cnt :: rest =>
      let box := minAreaRect cnt in
      let '(w, h) := size box in
      match aspect_ratio w h with
      | None => find_reference ref_object_width_cm rest
      | Some ratio =>
          if Py.ltb 1.5 ratio && Py.ltb ratio 1.7 then
            match Py.div (Py.min w h) ref_object_width_cm with
            | None => RefRaised Py.ZeroDivisionError
            | Some ppc => RefFound cnt (boxPoints box) ppc
            end
          else find_reference ref_object_width_cm rest
      end
  end.

(** Step 5: [contours[0]], replaced by [contours[1]] when its area is below
    1.1 times the area of the reference. *)
Definition select_target (contours : list Contour) (ref : Contour)
  : Py.Exception + Contour :=
  match nth_error contours 0 with
  | None => inl Py.IndexError
  | Some target =>
      if Py.ltb (contourArea target)
                (Py.mul (contourArea ref) (Py.lit 1.1)) then
        match nth_error contours 1 with
        | None => inl Py.IndexError
        | Some second => inr second
        end
      else inr target
  end.

(** Step 6: both sides divided by the scale, then [sorted] and unpacked into
    [dim1, dim2]. *)
Definition target_dimensions (ppc : Q) (target_size : Q * Q)
  : Py.Exception + (Q * Q) :=
  let '(target_w_px, target_h_px) := target_size in
  match Py.div target_w_px ppc with
  | None => inl Py.ZeroDivisionError
  | Some target_width_cm =>
      match Py.div target_h_px ppc with
      | None => inl Py.ZeroDivisionError
      | Some target_height_cm =>
          match Py.sorted (fun x => x) false
                  [target_width_cm; target_height_cm] with
          | [d1; d2] => inr (d1, d2)
          | _ => inl Py.ValueError
          end
      end
  end.

(** Steps 7 and 8 up to the log line: drawing, saving and logging. *)
Definition report (image_path : string) (m : Measurement Contour BoxPts)
  : list (Event BoxPts) :=
  [ DrawReference (ref_box_pts m);
    DrawTarget (target_box_pts m);
    PutText (target_box_pts m) (dim1 m) (dim2 m);
    ImWrite;
    InfoSaved;
    LogLine image_path (dim1 m) (dim2 m) ].

Definition calculate_dimensions (image_path : string)
  (ref_object_width_cm : Q) : Run Contour BoxPts :=
  match imread image_path with
  | None => mkRun [ErrorCouldNotRead image_path] (Stopped CouldNotRead)
  | Some image =>
      let contours := findContours image in
      if (List.length contours <? 2)%nat then
        mkRun [ErrorNotEnoughContours] (Stopped NotEnoughContours)
      else
        let contours := Py.sorted contourArea true contours in
        match find_reference ref_object_width_cm contours with
        | RefRaised e => mkRun [] (Raised e)
        | RefNone => mkRun [ErrorReferenceNotFound] (Stopped ReferenceNotFound)
        | RefFound ref_cnt ref_pts ppc =>
            let found := [InfoReferenceFound ppc] in
            match select_target contours ref_cnt with
            | inl e => mkRun found (Raised e)
            | inr target =>
                let target_box := minAreaRect target in
                match target_dimensions ppc (size target_box) with
                | inl e => mkRun found (Raised e)
                | inr (d1, d2) =>
                    let m := mkMeasurement ref_cnt ref_pts ppc
                               target (boxPoints target_box) d1 d2 in
                    let logged := found ++ ResultDimensions d1 d2
                                    :: report image_path m in
                    let '(h, w) := image_shape image in
                    match display_size h w with
                    | None => mkRun logged (Raised Py.Cv2Error)
                    | Some (width, height) =>
                        mkRun (logged ++ [ShowImage width height])
                              (Measured m)
                    end
                end
            end
        end
  end.

End Pipeline.

(** ** Properties named by the specification *)

Section Vocabulary.

Context {Image Contour BoxPts : Type} {cv : OpenCV Image Contour BoxPts}.

(** Short and long side of the box fitted to a contour. *)
Definition short_side (cnt : Contour) : Q :=
  Qmin (fst (size (minAreaRect cnt))) (snd (size (minAreaRect cnt))).

Definition long_side (cnt : Contour) : Q :=
  Qmax (fst (size (minAreaRect cnt))) (snd (size (minAreaRect cnt))).

(** The fitted box has a zero-length side. *)
Definition degenerate (cnt : Contour) : Prop :=
  fst (size (minAreaRect cnt)) == 0 \/ snd (size (minAreaRect cnt)) == 0.

(** Long side divided by short side lies strictly between 1.5 and 1.7. *)
Definition in_band (cnt : Contour) : Prop :=
  ~ short_side cnt == 0 /\
  1.5 < long_side cnt / short_side cnt /\
  long_side cnt / short_side cnt < 1.7.

(** Largest area first. *)
Definition area_descending (contours : list Contour) : Prop :=
  StronglySorted (fun a b => contourArea b <= contourArea a) contours.

(** The contours a run works on: those of the decoded image, sorted. *)
Definition boundaries (image_path : string) : list Contour :=
  match imread image_path with
  | None => []
  | Some image => Py.sorted contourArea true (findContours image)
  end.

End Vocabulary.

(** ** Synthetic scenes

    An instance of [OpenCV] for concrete runs: an image is the list of its
    shapes in the order [findContours] reports them, a shape carries its area
    and its fitted box, the only decodable file is the scene at hand, and
    every picture is 640 pixels wide and 480 high. *)

Module Scene.

Record Shape : Type := mkShape {
  area : Q;
  rect : RotatedRect
}.

Definition box (w h : Q) : RotatedRect := mkRotatedRect (0, 0) (w, h) 0.

Definition shape (a w h : Q) : Shape := mkShape a (box w h).

Definition file : string := "scene.png".

Definition camera (scene : list Shape) : OpenCV (list Shape) Shape (Q * Q) := {|
  imread := fun path => if String.eqb path file then Some scene else None;
  findContours := fun image => image;
  contourArea := area;
  minAreaRect := rect;
  boxPoints := size;
  image_shape := fun _ => (480, 640)%Z
|}.

Definition run (scene : list Shape) (ref_object_width_cm : Q)
  : Run Shape (Q * Q) :=
  @calculate_dimensions _ _ _ (camera scene) file ref_object_width_cm.

(** A card of 160 by 100 pixels next to a larger object of 300 by 150. *)
Definition card : Shape := shape 15000 160 100.
Definition book : Shape := shape 40000 300 150.

(** A card next to a slightly larger blob that is not card-shaped. *)
Definition small_card : Shape := shape 100 16 10.
Definition blob : Shape := shape 105 20 10.

(** A contour whose fitted box has no height. *)
Definition sliver : Shape := shape 50000 400 0.

(** The scenes, in the order [findContours] reports the shapes. *)
Definition desk : list Shape := [card; book].
Definition crowded : list Shape := [small_card; blob].
Definition cardless : list Shape := [blob; book].
Definition lonely : list Shape := [card].

(** The locals at the end of the run on [desk] with a declared width of 5. *)
Definition desk_measurement : Measurement Shape (Q * Q) := {|
  ref_contour := card;
  ref_box_pts := (160, 100);
  pixels_per_cm := 100 / 5;
  target_contour := book;
  target_box_pts := (300, 150);
  dim1 := 150 / (100 / 5);
  dim2 := 300 / (100 / 5)
|}.

(** The locals at the end of the run on [crowded] with a declared width of
    5.4: the card is measured against itself. *)
Definition crowded_measurement : Measurement Shape (Q * Q) := {|
  ref_contour := small_card;
  ref_box_pts := (16, 10);
  pixels_per_cm := 10 / 5.4;
  target_contour := small_card;
  target_box_pts := (16, 10);
  dim1 := 10 / (10 / 5.4);
  dim2 := 16 / (10 / 5.4)
|}.

(** A large card on top of everything else. *)
Definition big_card : Shape := shape 50000 320 200.
Definition poster : list Shape := [book; big_card; blob].

Definition poster_measurement : Measurement Shape (Q * Q) := {|
  ref_contour := big_card;
  ref_box_pts := (320, 200);
  pixels_per_cm := 200 / 5;
  target_contour := book;
  target_box_pts := (300, 150);
  dim1 := 150 / (200 / 5);
  dim2 := 300 / (200 / 5)
|}.

(** The desk scene with a declared width of 10. *)
(** Three contours whose largest has exactly 1.1 times the area of the
    card, which is the smallest. *)
Definition slab : Shape := shape 110 22 10.
Definition tie : list Shape := [small_card; slab; blob].

Definition tie_measurement : Measurement Shape (Q * Q) := {|
  ref_contour := small_card;
  ref_box_pts := (16, 10);
  pixels_per_cm := 10 / 5;
  target_contour := blob;
  target_box_pts := (20, 10);
  dim1 := 10 / (10 / 5);
  dim2 := 20 / (10 / 5)
|}.

Definition desk_measurement_10 : Measurement Shape (Q * Q) := {|
  ref_contour := card;
  ref_box_pts := (160, 100);
  pixels_per_cm := 100 / 10;
  target_contour := book;
  target_box_pts := (300, 150);
  dim1 := 150 / (100 / 10);
  dim2 := 300 / (100 / 10)
|}.

End Scene.

(** ** Facts about the Python primitives *)

Module PyFacts.

Lemma ltb_lt (x y : Q) : Py.ltb x y = true <-> x < y.
Proof.
  unfold Py.ltb. rewrite negb_true_iff. split; intro H.
  - apply Qnot_le_lt. intro Hle. apply Qle_bool_iff in Hle. congruence.
  - destruct (Qle_bool y x) eqn:E; [|reflexivity].
    apply Qle_bool_iff in E. exfalso. apply (Qlt_not_le _ _ H E).
Qed.

Lemma ltb_ge (x y : Q) : Py.ltb x y = false <-> y <= x.
Proof.
  unfold Py.ltb. rewrite negb_false_iff. apply Qle_bool_iff.
Qed.

Lemma min_is_Qmin (a b : Q) : Py.min a b = Qmin a b.
Proof.
  unfold Py.min. destruct (Py.ltb b a) eqn:E.
  - apply ltb_lt in E. symmetry. unfold Qmin, GenericMinMax.gmin.
    destruct (a ?= b) eqn:C; try reflexivity.
    + apply Qeq_alt in C. rewrite C in E. exfalso. apply (Qlt_irrefl _ E).
    + apply Qlt_alt in C. exfalso. apply (Qlt_irrefl a).
      apply (Qlt_trans _ _ _ C E).
  - apply ltb_ge in E. symmetry. unfold Qmin, GenericMinMax.gmin.
    destruct (a ?= b) eqn:C; try reflexivity.
    apply Qgt_alt in C. exfalso. apply (Qlt_not_le _ _ C E).
Qed.

Lemma max_is_Qmax (a b : Q) : Py.max a b = Qmax a b.
Proof.
  unfold Py.max. destruct (Py.ltb a b) eqn:E.
  - apply ltb_lt in E. symmetry. unfold Qmax, GenericMinMax.gmax.
    destruct (a ?= b) eqn:C; try reflexivity.
    + apply Qeq_alt in C. rewrite C in E. exfalso. apply (Qlt_irrefl _ E).
    + apply Qgt_alt in C. exfalso. apply (Qlt_irrefl a).
      apply (Qlt_trans _ _ _ E C).
  - apply ltb_ge in E. symmetry. unfold Qmax, GenericMinMax.gmax.
    destruct (a ?= b) eqn:C; try reflexivity.
    apply Qlt_alt in C. exfalso. apply (Qlt_not_le _ _ C E).
Qed.

Lemma div_Some (a b q : Q) : Py.div a b = Some q <-> ~ b == 0 /\ q = a / b.
Proof.
  unfold Py.div. destruct (Qeq_bool b 0) eqn:E.
  - apply Qeq_bool_iff in E. split; [discriminate | tauto].
  - apply Qeq_bool_neq in E. split.
    + intros [= <-]. tauto.
    + intros [_ ->]. reflexivity.
Qed.

Lemma div_None (a b : Q) : Py.div a b = None <-> b == 0.
Proof.
  unfold Py.div. destruct (Qeq_bool b 0) eqn:E.
  - apply Qeq_bool_iff in E. tauto.
  - apply Qeq_bool_neq in E. split; [discriminate | tauto].
Qed.

Section Sorting.

Context {A : Type} (key : A -> Q).

Local Abbreviation ascending := (fun a b : A => key a <= key b).
Local Abbreviation descending := (fun a b : A => key b <= key a).

Lemma insort_perm (x : A) (l : list A) :
  Permutation (Py.insort key x l) (x :: l).
Proof.
  induction l as [|y l IH]; simpl; [reflexivity|].
  destruct (Py.ltb (key y) (key x)); [|reflexivity].
  rewrite IH. apply perm_swap.
Qed.

Lemma insort_sorted (x : A) (l : list A) :
  StronglySorted ascending l -> StronglySorted ascending (Py.insort key x l).
Proof.
  induction 1 as [|y l Hs IH Hall]; simpl.
  - repeat constructor.
  - destruct (Py.ltb (key y) (key x)) eqn:E.
    + apply ltb_lt in E. constructor; [exact IH|].
      rewrite insort_perm. constructor; [|exact Hall].
      apply Qlt_le_weak, E.
    + apply ltb_ge in E. constructor; [constructor; assumption|].
      constructor; [exact E|].
      eapply Forall_impl; [|exact Hall].
      intros z Hz. simpl in *. eapply Qle_trans; eassumption.
Qed.

Lemma sort_ascending_perm (l : list A) :
  Permutation (Py.sort_ascending key l) l.
Proof.
  induction l as [|x l IH]; simpl; [reflexivity|].
  rewrite insort_perm. constructor. exact IH.
Qed.

Lemma sort_ascending_sorted (l : list A) :
  StronglySorted ascending (Py.sort_ascending key l).
Proof.
  induction l as [|x l IH]; simpl; [constructor|].
  apply insort_sorted, IH.
Qed.

Lemma sorted_snoc (R : A -> A -> Prop) (l : list A) (x : A) :
  StronglySorted R l -> Forall (fun y => R y x) l ->
  StronglySorted R (l ++ [x]).
Proof.
  induction 1 as [|y l Hs IH Hall]; simpl; intro Hx.
  - repeat constructor.
  - inversion Hx; subst. constructor; [auto|].
    apply Forall_app. split; [exact Hall | repeat constructor; assumption].
Qed.

Lemma sorted_rev (R : A -> A -> Prop) (l : list A) :
  StronglySorted R l -> StronglySorted (fun a b => R b a) (rev l).
Proof.
  induction 1 as [|y l Hs IH Hall]; simpl; [constructor|].
  apply sorted_snoc; [exact IH|].
  apply Forall_rev. exact Hall.
Qed.

Lemma sorted_perm (reverse : bool) (l : list A) :
  Permutation (Py.sorted key reverse l) l.
Proof.
  unfold Py.sorted. destruct reverse.
  - rewrite <- Permutation_rev, sort_ascending_perm.
    symmetry. apply Permutation_rev.
  - apply sort_ascending_perm.
Qed.

Lemma sorted_length (reverse : bool) (l : list A) :
  List.length (Py.sorted key reverse l) = List.length l.
Proof. apply Permutation_length, sorted_perm. Qed.

Lemma sorted_reverse_descending (l : list A) :
  StronglySorted descending (Py.sorted key true l).
Proof.
  unfold Py.sorted.
  apply (sorted_rev ascending), sort_ascending_sorted.
Qed.

Lemma sorted_pair (a b : A) :
  Py.sorted key false [a; b] =
  if Py.ltb (key b) (key a) then [b; a] else [a; b].
Proof. reflexivity. Qed.

End Sorting.

(** *** Rounding *)

Lemma two_nonzero : ~ 2 == 0.
Proof. discriminate. Qed.

Lemma pow2_positive (e : Z) : 0 < 2 ^ e.
Proof. apply Qpower_0_lt. reflexivity. Qed.

Lemma rne_bounds (q : Q) :
  q - (1 # 2) <= inject_Z (Py.rne q) /\ inject_Z (Py.rne q) <= q + (1 # 2).
Proof.
  unfold Py.rne.
  pose proof (Qfloor_le q) as Hlo.
  pose proof (Qlt_floor q) as Hhi.
  rewrite inject_Z_plus in Hhi. change (inject_Z 1) with 1 in Hhi.
  destruct (Qcompare (q - inject_Z (Qfloor q)) (1 # 2)) eqn:C.
  - apply Qeq_alt in C.
    destruct (Z.even (Qfloor q)); rewrite ?inject_Z_plus;
      change (inject_Z 1) with 1; split; lra.
  - apply Qlt_alt in C. split; lra.
  - apply Qgt_alt in C. rewrite inject_Z_plus.
    change (inject_Z 1) with 1. split; lra.
Qed.

Lemma exponent_le (x : Q) : 0 < x -> 2 ^ Py.exponent x <= x.
Proof.
  intro Hx. unfold Py.exponent. destruct x as [n d]. cbn [Qnum Qden].
  set (a := Z.log2 n). set (b := Z.log2 (Zpos d)).
  destruct (Qle_bool (2 ^ (a - b)) (n # d)) eqn:E.
  - apply Qle_bool_iff, E.
  - assert (Hn : (0 < n)%Z) by (unfold Qlt in Hx; simpl in Hx; lia).
    destruct (Z.log2_spec _ Hn) as [Ha _]. fold a in Ha.
    destruct (Z.log2_spec (Zpos d) (Pos2Z.is_pos _)) as [_ Hb].
    fold b in Hb.
    assert (Ha0 : (0 <= a)%Z) by apply Z.log2_nonneg.
    assert (Hb0 : (0 <= b)%Z) by apply Z.log2_nonneg.
    rewrite (Qmake_Qdiv n d).
    apply Qle_shift_div_l.
    + change 0 with (inject_Z 0). rewrite <- Zlt_Qlt. apply Pos2Z.is_pos.
    + apply Qle_trans with (2 ^ (a - b - 1) * 2 ^ (b + 1)).
      * apply Qmult_le_l; [apply pow2_positive|].
        change 2 with (inject_Z 2) at 1.
        rewrite <- (Zpower_Qpower 2 (b + 1)) by lia.
        rewrite <- Zle_Qle. apply Z.lt_le_incl.
        replace (b + 1)%Z with (Z.succ b) by lia. exact Hb.
      * rewrite <- Qpower_plus by exact two_nonzero.
        replace (a - b - 1 + (b + 1))%Z with a by lia.
        change 2 with (inject_Z 2).
        rewrite <- (Zpower_Qpower 2 a) by lia.
        rewrite <- Zle_Qle. exact Ha.
Qed.

Lemma exponent_lt (x : Q) : 0 < x -> x < 2 ^ (Py.exponent x + 1).
Proof.
  intro Hx. unfold Py.exponent. destruct x as [n d]. cbn [Qnum Qden].
  set (a := Z.log2 n). set (b := Z.log2 (Zpos d)).
  destruct (Qle_bool (2 ^ (a - b)) (n # d)) eqn:E.
  - assert (Hn : (0 < n)%Z) by (unfold Qlt in Hx; simpl in Hx; lia).
    destruct (Z.log2_spec _ Hn) as [_ Ha]. fold a in Ha.
    destruct (Z.log2_spec (Zpos d) (Pos2Z.is_pos _)) as [Hb _].
    fold b in Hb.
    assert (Ha0 : (0 <= a)%Z) by apply Z.log2_nonneg.
    assert (Hb0 : (0 <= b)%Z) by apply Z.log2_nonneg.
    rewrite (Qmake_Qdiv n d).
    apply Qlt_shift_div_r.
    + change 0 with (inject_Z 0). rewrite <- Zlt_Qlt. apply Pos2Z.is_pos.
    + apply Qlt_le_trans with (2 ^ (a - b + 1) * 2 ^ b).
      * rewrite <- Qpower_plus by exact two_nonzero.
        replace (a - b + 1 + b)%Z with (a + 1)%Z by lia.
        change 2 with (inject_Z 2).
        rewrite <- (Zpower_Qpower 2 (a + 1)) by lia.
        rewrite <- Zlt_Qlt. replace (a + 1)%Z with (Z.succ a) by lia.
        exact Ha.
      * apply Qmult_le_l; [apply pow2_positive|].
        change 2 with (inject_Z 2) at 1.
        rewrite <- (Zpower_Qpower 2 b) by lia.
        rewrite <- Zle_Qle. exact Hb.
  - replace (a - b - 1 + 1)%Z with (a - b)%Z by lia.
    apply Qnot_le_lt. intro Hle. apply Qle_bool_iff in Hle. congruence.
Qed.

(** The relative error of rounding is at most [2 ^ -53]. *)
Lemma round_pos_bounds (x : Q) :
  0 < x ->
  x * (1 - 2 ^ (-53)) <= Py.round_pos x /\
  Py.round_pos x <= x * (1 + 2 ^ (-53)).
Proof.
  intro Hx. unfold Py.round_pos.
  pose proof (exponent_le x Hx) as He.
  set (e := Py.exponent x) in *. set (s := (e - 52)%Z).
  pose proof (pow2_positive s) as Hs.
  destruct (rne_bounds (x / 2 ^ s)) as [Hlo Hhi].
  set (m := inject_Z (Py.rne (x / 2 ^ s))) in *.
  set (u := 2 ^ (-53)).
  assert (Hhalf : (1 # 2) * 2 ^ s <= x * u).
  { unfold u. apply Qle_trans with (2 ^ e * 2 ^ (-53)).
    - rewrite <- Qpower_plus by exact two_nonzero.
      replace (e + -53)%Z with (-1 + s)%Z by (unfold s; lia).
      rewrite Qpower_plus by exact two_nonzero. apply Qle_refl.
    - apply Qmult_le_compat_r; [exact He|].
      apply Qlt_le_weak, pow2_positive. }
  assert (Hx' : x == x / 2 ^ s * 2 ^ s) by (field; lra).
  assert (H1 : (x / 2 ^ s - (1 # 2)) * 2 ^ s <= m * 2 ^ s)
    by (apply Qmult_le_compat_r; [exact Hlo | lra]).
  assert (H2 : m * 2 ^ s <= (x / 2 ^ s + (1 # 2)) * 2 ^ s)
    by (apply Qmult_le_compat_r; [exact Hhi | lra]).
  set (y := x / 2 ^ s) in *. set (p := 2 ^ s) in *.
  assert (E1 : (y - (1 # 2)) * p == y * p - (1 # 2) * p) by ring.
  assert (E2 : (y + (1 # 2)) * p == y * p + (1 # 2) * p) by ring.
  assert (E3 : x * (1 - u) == x - x * u) by ring.
  assert (E4 : x * (1 + u) == x + x * u) by ring.
  rewrite E1 in H1. rewrite E2 in H2. rewrite E3, E4.
  rewrite <- Hx' in H1, H2. split; lra.
Qed.

Lemma round_of_positive (x : Q) : 0 < x -> Py.round x = Py.round_pos x.
Proof.
  intro Hx. unfold Py.round. destruct (Qcompare x 0) eqn:C.
  - apply Qeq_alt in C. lra.
  - apply Qlt_alt in C. lra.
  - reflexivity.
Qed.

Lemma round_of_negative (x : Q) :
  x < 0 -> Py.round x = - Py.round_pos (- x).
Proof.
  intro Hx. unfold Py.round. destruct (Qcompare x 0) eqn:C.
  - apply Qeq_alt in C. lra.
  - reflexivity.
  - apply Qgt_alt in C. lra.
Qed.

Lemma round_of_zero (x : Q) : x == 0 -> Py.round x = 0.
Proof.
  intro Hx. unfold Py.round. destruct (Qcompare x 0) eqn:C.
  - reflexivity.
  - apply Qlt_alt in C. lra.
  - apply Qgt_alt in C. lra.
Qed.

Lemma round_bounds (x : Q) :
  0 < x ->
  x * (1 - 2 ^ (-53)) <= Py.round x /\ Py.round x <= x * (1 + 2 ^ (-53)).
Proof.
  intro Hx. rewrite (round_of_positive x Hx). apply round_pos_bounds, Hx.
Qed.

(** The constant [1.1] of the source, less the rounding error of a product,
    is still above 1. *)
Lemma lit_1_1_margin : 1 < Py.lit 1.1 * (1 - 2 ^ (-53)).
Proof. vm_compute. reflexivity. Qed.

(** A positive area is strictly below its product with [1.1]. *)
Lemma area_test_positive (a : Q) : 0 < a -> a < Py.mul a (Py.lit 1.1).
Proof.
  intro Ha. pose proof lit_1_1_margin as Hc.
  set (c := Py.lit 1.1) in *. set (u := 2 ^ (-53)) in *.
  assert (Hu : 0 < u) by apply pow2_positive.
  assert (Hc0 : 0 < c).
  { destruct (Qlt_le_dec 0 c) as [H|H]; [exact H|]. exfalso.
    assert (Hm : c * (1 - u) <= 0 * (1 - u)).
    { apply Qmult_le_compat_r; [exact H|].
      assert (Hu1 : u < 1) by (vm_compute; reflexivity). lra. }
    lra. }
  assert (Hx : 0 < a * c) by (apply Qmult_lt_0_compat; assumption).
  unfold Py.mul. destruct (round_bounds _ Hx) as [Hlo _]. fold u in Hlo.
  assert (Hk : 0 < a * (c * (1 - u) - 1))
    by (apply Qmult_lt_0_compat; [exact Ha | lra]).
  assert (E : a * c * (1 - u) == a + a * (c * (1 - u) - 1)) by ring.
  rewrite E in Hlo. lra.
Qed.

(** An area that is not positive is not below its product with [1.1]. *)
Lemma area_test_nonpositive (a : Q) : a <= 0 -> Py.mul a (Py.lit 1.1) <= a.
Proof.
  intro Ha. pose proof lit_1_1_margin as Hc.
  set (c := Py.lit 1.1) in *. set (u := 2 ^ (-53)) in *.
  assert (Hu : 0 < u) by apply pow2_positive.
  assert (Hu1 : u < 1) by (vm_compute; reflexivity).
  assert (Hc0 : 0 < c).
  { destruct (Qlt_le_dec 0 c) as [H|H]; [exact H|]. exfalso.
    assert (Hm : c * (1 - u) <= 0 * (1 - u))
      by (apply Qmult_le_compat_r; [exact H | lra]).
    lra. }
  unfold Py.mul. apply Qle_lteq in Ha. destruct Ha as [Hneg|Hz].
  - assert (Hx : 0 < - (a * c)).
    { assert (E : - (a * c) == (- a) * c) by ring. rewrite E.
      apply Qmult_lt_0_compat; [lra | exact Hc0]. }
    assert (Hx' : a * c < 0) by lra.
    rewrite (round_of_negative _ Hx').
    destruct (round_pos_bounds _ Hx) as [Hlo _]. fold u in Hlo.
    assert (Hk : 0 < (- a) * (c * (1 - u) - 1))
      by (apply Qmult_lt_0_compat; lra).
    assert (E : - (a * c) * (1 - u) == - a + (- a) * (c * (1 - u) - 1))
      by ring.
    rewrite E in Hlo. lra.
  - assert (Hx : a * c == 0) by (rewrite Hz; ring).
    rewrite (round_of_zero _ Hx). rewrite Hz. apply Qle_refl.
Qed.

End PyFacts.

(** ** The reference search *)

Section ReferenceFacts.

Context {Image Contour BoxPts : Type} {cv : OpenCV Image Contour BoxPts}.

(** The [try] block yields a ratio exactly when the short side is not zero,
    and the ratio is then long side over short side. *)
Lemma aspect_ratio_Some (w h r : Q) :
  aspect_ratio w h = Some r <-> ~ Qmin w h == 0 /\ r = Qmax w h / Qmin w h.
Proof.
  unfold aspect_ratio. rewrite PyFacts.div_Some.
  rewrite PyFacts.min_is_Qmin, PyFacts.max_is_Qmax. reflexivity.
Qed.

Lemma aspect_ratio_None (w h : Q) :
  aspect_ratio w h = None <-> Qmin w h == 0.
Proof.
  unfold aspect_ratio. rewrite PyFacts.div_None.
  rewrite PyFacts.min_is_Qmin. reflexivity.
Qed.

(** The test of the loop body, as a proposition. *)
Lemma band_test (cnt : Contour) (r : Q) :
  aspect_ratio (fst (size (minAreaRect cnt))) (snd (size (minAreaRect cnt)))
    = Some r ->
  (Py.ltb 1.5 r && Py.ltb r 1.7 = true <-> in_band cnt).
Proof.
  intro Hr. apply aspect_ratio_Some in Hr. destruct Hr as [Hnz ->].
  rewrite andb_true_iff, !PyFacts.ltb_lt.
  unfold in_band, short_side, long_side. tauto.
Qed.

Lemma in_band_dec (cnt : Contour) : {in_band cnt} + {~ in_band cnt}.
Proof.
  destruct (aspect_ratio (fst (size (minAreaRect cnt)))
              (snd (size (minAreaRect cnt)))) as [r|] eqn:Hr.
  - destruct (Py.ltb 1.5 r && Py.ltb r 1.7) eqn:Hb.
    + left. apply (band_test cnt r Hr), Hb.
    + right. intro H. apply (band_test cnt r Hr) in H. congruence.
  - right. intros [Hnz _]. apply aspect_ratio_None in Hr. exact (Hnz Hr).
Qed.

(** One turn of the loop on a contour outside the band: [continue]. *)
Lemma find_reference_skip (refw : Q) (cnt : Contour) (rest : list Contour) :
  ~ in_band cnt ->
  find_reference refw (cnt :: rest) = find_reference refw rest.
Proof.
  intro Hout. simpl.
  pose proof (band_test cnt) as Ht. unfold in_band, short_side, long_side in *.
  destruct (size (minAreaRect cnt)) as [w h]. simpl in *.
  destruct (aspect_ratio w h) as [r|]; [|reflexivity].
  destruct (Py.ltb 1.5 r && Py.ltb r 1.7) eqn:Hb; [|reflexivity].
  exfalso. apply Hout. apply (Ht r eq_refl). exact Hb.
Qed.

(** One turn of the loop on a contour inside the band: the scale is computed
    and the loop is left. *)
Lemma find_reference_hit (refw : Q) (cnt : Contour) (rest : list Contour) :
  in_band cnt ->
  find_reference refw (cnt :: rest) =
  match Py.div (short_side cnt) refw with
  | None => RefRaised Py.ZeroDivisionError
  | Some ppc => RefFound cnt (boxPoints (minAreaRect cnt)) ppc
  end.
Proof.
  intro Hin. simpl.
  pose proof (band_test cnt) as Ht.
  pose proof (aspect_ratio_None (fst (size (minAreaRect cnt)))
                (snd (size (minAreaRect cnt)))) as Hn.
  unfold in_band, short_side, long_side in *.
  destruct (size (minAreaRect cnt)) as [w h]. simpl in *.
  destruct (aspect_ratio w h) as [r|].
  - apply (Ht r eq_refl) in Hin. rewrite Hin.
    rewrite PyFacts.min_is_Qmin. reflexivity.
  - exfalso. apply (proj1 Hin). apply Hn. reflexivity.
Qed.

(** What the loop leaves behind, for any list of contours. *)
Lemma find_reference_spec (refw : Q) (contours : list Contour) :
  match find_reference refw contours with
  | RefFound cnt pts ppc =>
      exists pre post,
        contours = pre ++ cnt :: post /\
        Forall (fun c => ~ in_band c) pre /\
        in_band cnt /\
        pts = boxPoints (minAreaRect cnt) /\
        ppc = short_side cnt / refw /\
        ~ refw == 0
  | RefNone => Forall (fun c => ~ in_band c) contours
  | RefRaised e =>
      e = Py.ZeroDivisionError /\ refw == 0 /\ Exists in_band contours
  end.
Proof.
  induction contours as [|cnt rest IH].
  - simpl. constructor.
  - destruct (in_band_dec cnt) as [Hin|Hout].
    + rewrite (find_reference_hit refw cnt rest Hin).
      destruct (Py.div (short_side cnt) refw) as [ppc|] eqn:Hd.
      * apply PyFacts.div_Some in Hd. destruct Hd as [Hnz ->].
        exists [], rest. split; [reflexivity|].
        split; [constructor|]. repeat split; auto; apply Hin.
      * apply PyFacts.div_None in Hd. split; [reflexivity|].
        split; [exact Hd|]. constructor. exact Hin.
    + rewrite (find_reference_skip refw cnt rest Hout).
      destruct (find_reference refw rest) as [c pts ppc| |e].
      * destruct IH as (pre & post & -> & Hpre & Hc & Hpts & Hppc & Hnz).
        exists (cnt :: pre), post. split; [reflexivity|].
        split; [constructor; assumption|]. tauto.
      * constructor; assumption.
      * destruct IH as (He & Hz & Hex). split; [exact He|].
        split; [exact Hz|]. apply Exists_cons_tl. exact Hex.
Qed.

(** With a non-zero reference width the search finds the first contour in
    the band whenever there is one. *)
Lemma find_reference_first (refw : Q) (pre post : list Contour)
  (cnt : Contour) :
  ~ refw == 0 ->
  Forall (fun c => ~ in_band c) pre ->
  in_band cnt ->
  find_reference refw (pre ++ cnt :: post) =
  RefFound cnt (boxPoints (minAreaRect cnt)) (short_side cnt / refw).
Proof.
  intros Hnz Hpre Hin. induction Hpre as [|c pre Hc Hpre IH]; simpl app.
  - rewrite (find_reference_hit refw cnt post Hin).
    unfold Py.div.
    destruct (Qeq_bool refw 0) eqn:E; [|reflexivity].
    apply Qeq_bool_iff in E. contradiction.
  - rewrite (find_reference_skip refw c _ Hc). exact IH.
Qed.

Lemma short_le_long (cnt : Contour) : short_side cnt <= long_side cnt.
Proof.
  unfold short_side, long_side.
  eapply Qle_trans; [apply Q.le_min_l | apply Q.le_max_l].
Qed.

(** A box with a zero-length side is never in the band. *)
Lemma degenerate_out_of_band (cnt : Contour) :
  degenerate cnt -> ~ in_band cnt.
Proof.
  unfold degenerate, in_band, short_side, long_side.
  destruct (size (minAreaRect cnt)) as [w h]. simpl.
  intros Hz (Hnz & Hlo & _).
  assert (Hmax : Qmax w h == 0).
  { destruct (Q.min_spec w h) as [[Hlt Hn]|[Hle Hn]];
    destruct (Q.max_spec w h) as [[Hlt' Hm]|[Hle' Hm]];
    rewrite Hm; rewrite Hn in Hnz.
    - destruct Hz; [contradiction | assumption].
    - exfalso. apply (Qlt_not_le _ _ Hlt Hle').
    - exfalso. apply (Qlt_not_le _ _ Hlt' Hle).
    - destruct Hz; [assumption | contradiction]. }
  rewrite Hmax in Hlo. unfold Qdiv in Hlo. rewrite Qmult_0_l in Hlo.
  revert Hlo. apply Qle_not_lt. discriminate.
Qed.

End ReferenceFacts.

(** ** Target selection, conversion and whole runs *)

Section RunFacts.

Context {Image Contour BoxPts : Type} {cv : OpenCV Image Contour BoxPts}.

Lemma boundaries_readable (image_path : string) (image : Image) :
  imread image_path = Some image ->
  boundaries image_path = Py.sorted contourArea true (findContours image).
Proof. intro H. unfold boundaries. rewrite H. reflexivity. Qed.

Lemma boundaries_descending (image_path : string) :
  area_descending (boundaries image_path).
Proof.
  unfold boundaries, area_descending. destruct (imread image_path).
  - apply PyFacts.sorted_reverse_descending.
  - constructor.
Qed.

(** A list of at least two contours still has two after sorting. *)
Lemma sorted_two (contours : list Contour) :
  (List.length contours <? 2)%nat = false ->
  exists c0 c1 rest, Py.sorted contourArea true contours = c0 :: c1 :: rest.
Proof.
  intro Hlen. apply Nat.ltb_ge in Hlen.
  rewrite <- (PyFacts.sorted_length contourArea true) in Hlen.
  destruct (Py.sorted contourArea true contours) as [|c0 [|c1 rest]];
    simpl in Hlen; try lia.
  eauto.
Qed.

Lemma select_target_two (c0 c1 ref : Contour) (rest : list Contour) :
  select_target (c0 :: c1 :: rest) ref =
  inr (if Py.ltb (contourArea c0) (Py.mul (contourArea ref) (Py.lit 1.1))
       then c1 else c0).
Proof.
  unfold select_target. cbn [nth_error].
  destruct (Py.ltb (contourArea c0) (Py.mul (contourArea ref) (Py.lit 1.1)));
    reflexivity.
Qed.

(** With a non-zero scale the conversion does not raise. *)
Lemma target_dimensions_value (ppc w h : Q) :
  ~ ppc == 0 ->
  target_dimensions ppc (w, h) =
  inr (if Py.ltb (h / ppc) (w / ppc) then (h / ppc, w / ppc)
       else (w / ppc, h / ppc)).
Proof.
  intro Hnz. unfold target_dimensions, Py.div.
  destruct (Qeq_bool ppc 0) eqn:E.
  - apply Qeq_bool_iff in E. contradiction.
  - rewrite PyFacts.sorted_pair.
    destruct (Py.ltb (h / ppc) (w / ppc)); reflexivity.
Qed.

Lemma target_dimensions_inv (ppc w h d1 d2 : Q) :
  target_dimensions ppc (w, h) = inr (d1, d2) ->
  ~ ppc == 0 /\
  (d1, d2) = (if Py.ltb (h / ppc) (w / ppc) then (h / ppc, w / ppc)
              else (w / ppc, h / ppc)).
Proof.
  intro H. destruct (Qeq_dec ppc 0) as [Hz|Hnz].
  - exfalso. unfold target_dimensions, Py.div in H.
    apply Qeq_bool_iff in Hz. rewrite Hz in H. discriminate.
  - rewrite (target_dimensions_value ppc w h Hnz) in H.
    injection H as H. split; [exact Hnz | symmetry; exact H].
Qed.

(** The scale of a matched reference is not zero. *)
Lemma scale_nonzero (cnt : Contour) (refw : Q) :
  in_band cnt -> ~ refw == 0 -> ~ short_side cnt / refw == 0.
Proof.
  intros [Hs _] Hw Hz. apply Hs.
  rewrite <- (Qmult_div_r (short_side cnt) refw Hw).
  rewrite Hz. apply Qmult_0_r.
Qed.

(** A run that reaches the end went through every stage. *)
Lemma calculate_dimensions_inv (image_path : string) (refw : Q)
  (m : Measurement Contour BoxPts) :
  outcome (calculate_dimensions image_path refw) = Measured m ->
  exists image,
    imread image_path = Some image /\
    (List.length (findContours image) <? 2)%nat = false /\
    find_reference refw (boundaries image_path) =
      RefFound (ref_contour m) (ref_box_pts m) (pixels_per_cm m) /\
    select_target (boundaries image_path) (ref_contour m) =
      inr (target_contour m) /\
    target_dimensions (pixels_per_cm m)
      (size (minAreaRect (target_contour m))) = inr (dim1 m, dim2 m) /\
    target_box_pts m = boxPoints (minAreaRect (target_contour m)).
Proof.
  unfold calculate_dimensions, boundaries.
  destruct (imread image_path) as [image|]; [|discriminate].
  destruct (List.length (findContours image) <? 2)%nat eqn:Hlen;
    [discriminate|].
  destruct (find_reference refw _) as [r pts ppc| |e] eqn:Hf;
    try discriminate.
  destruct (select_target _ r) as [e|t] eqn:Ht; [discriminate|].
  destruct (target_dimensions ppc _) as [e|[d1 d2]] eqn:Hd; [discriminate|].
  destruct (image_shape image) as [h w].
  destruct (display_size h w) as [[dw dh]|]; [|discriminate].
  simpl. intros [= <-]. simpl. exists image. repeat split; assumption.
Qed.

(** A readable image with two contours or more, one of them in the band,
    a non-zero reference width and a size that can be displayed is
    measured. *)
Lemma calculate_dimensions_measures (image_path : string) (refw : Q)
  (image : Image) :
  imread image_path = Some image ->
  (List.length (findContours image) <? 2)%nat = false ->
  Exists in_band (findContours image) ->
  ~ refw == 0 ->
  display_size (fst (image_shape image)) (snd (image_shape image)) <> None ->
  exists m, outcome (calculate_dimensions image_path refw) = Measured m.
Proof.
  intros Hread Hlen Hex Hnz Hshow. unfold calculate_dimensions.
  rewrite Hread, Hlen.
  destruct (sorted_two _ Hlen) as (c0 & c1 & rest & Hs).
  pose proof (find_reference_spec refw
                (Py.sorted contourArea true (findContours image))) as Hspec.
  destruct (find_reference refw _) as [r pts ppc| |e].
  - destruct Hspec as (pre & post & _ & _ & Hin & _ & -> & _).
    rewrite Hs, select_target_two.
    set (t := if Py.ltb _ _ then c1 else c0). clearbody t.
    destruct (size (minAreaRect t)) as [w h].
    rewrite (target_dimensions_value _ w h (scale_nonzero r refw Hin Hnz)).
    destruct (image_shape image) as [ih iw]. cbn [fst snd] in Hshow.
    destruct (display_size ih iw) as [[dw dh]|]; [|contradiction].
    destruct (Py.ltb _ _); simpl; eauto.
  - exfalso. apply Exists_exists in Hex. destruct Hex as (c & Hc & Hin).
    rewrite Forall_forall in Hspec. apply (Hspec c); [|exact Hin].
    apply (Permutation_in c
             (Permutation_sym (PyFacts.sorted_perm contourArea true _))).
    exact Hc.
  - exfalso. destruct Hspec as (_ & Hz & _). contradiction.
Qed.

(** When the reference is the second contour and the area of the first one
    is below the product of the area test, the contour that is measured is
    the reference. *)
Lemma fallback_takes_reference (image_path : string) (refw : Q)
  (m : Measurement Contour BoxPts) (largest : Contour) (rest : list Contour) :
  outcome (calculate_dimensions image_path refw) = Measured m ->
  boundaries image_path = largest :: ref_contour m :: rest ->
  contourArea largest < Py.mul (contourArea (ref_contour m)) (Py.lit 1.1) ->
  target_contour m = ref_contour m.
Proof.
  intros Hrun Hb Hlt.
  destruct (calculate_dimensions_inv _ _ _ Hrun)
    as (image & _ & _ & _ & Hsel & _).
  rewrite Hb, select_target_two in Hsel.
  apply PyFacts.ltb_lt in Hlt. rewrite Hlt in Hsel.
  injection Hsel as Hsel. symmetry. exact Hsel.
Qed.

End RunFacts.

(** ** The claims of the specification *)

Section Claims.

Context {Image Contour BoxPts : Type} {cv : OpenCV Image Contour BoxPts}.

(** C1.  The reference search runs over the contours sorted by area, largest
    first, and leaves with the first one whose long side over short side
    lies strictly between 1.5 and 1.7: every contour before it is outside
    the band, and its own ratio is neither 1.5 nor 1.7.  When the search
    finds nothing, no contour is in the band; it raises only for a
    reference width of zero. *)
Theorem reference_is_first_in_band (refw : Q) (contours : list Contour) :
  let ordered := Py.sorted contourArea true contours in
  Permutation ordered contours /\
  area_descending ordered /\
  match find_reference refw ordered with
  | RefFound cnt _ _ =>
      (exists pre post,
          ordered = pre ++ cnt :: post /\
          Forall (fun c => ~ in_band c) pre) /\
      1.5 < long_side cnt / short_side cnt /\
      long_side cnt / short_side cnt < 1.7 /\
      ~ long_side cnt / short_side cnt == 1.5 /\
      ~ long_side cnt / short_side cnt == 1.7
  | RefNone => Forall (fun c => ~ in_band c) ordered
  | RefRaised _ => refw == 0 /\ Exists in_band ordered
  end.
Proof.
  intro ordered.
  split; [apply PyFacts.sorted_perm|].
  split; [apply PyFacts.sorted_reverse_descending|].
  pose proof (find_reference_spec refw ordered) as Hspec.
  destruct (find_reference refw ordered) as [cnt pts ppc| |e].
  - destruct Hspec as (pre & post & Heq & Hpre & (_ & Hlo & Hhi) & _).
    split; [exists pre, post; split; assumption|].
    split; [exact Hlo|]. split; [exact Hhi|].
    split; intro Heq'; rewrite Heq' in *.
    + exact (Qlt_irrefl _ Hlo).
    + exact (Qlt_irrefl _ Hhi).
  - exact Hspec.
  - tauto.
Qed.


(** C3.  Worked example: in a run with declared width 5 whose reference box
    has a short side of 100 pixels and whose target box has sides of 300
    and 150 pixels, in either order, the scale is 20 pixels per unit and
    the dimensions are 7.5 and 15, in this order. *)
Theorem worked_example (image_path : string) (refw : Q)
  (m : Measurement Contour BoxPts)
  (Hrun : outcome (calculate_dimensions image_path refw) = Measured m)
  (Hwidth : refw == 5)
  (Href : short_side (ref_contour m) == 100)
  (Htarget :
     (fst (size (minAreaRect (target_contour m))) == 300 /\
      snd (size (minAreaRect (target_contour m))) == 150) \/
     (fst (size (minAreaRect (target_contour m))) == 150 /\
      snd (size (minAreaRect (target_contour m))) == 300)) :
  pixels_per_cm m == 20 /\ dim1 m == 7.5 /\ dim2 m == 15.
Proof.
  destruct (calculate_dimensions_inv _ _ _ Hrun)
    as (image & _ & _ & Hfind & _ & Hdim & _).
  pose proof (find_reference_spec refw (boundaries image_path)) as Hspec.
  rewrite Hfind in Hspec.
  destruct Hspec as (pre & post & _ & _ & _ & _ & Hppc & _).
  assert (Hscale : pixels_per_cm m == 20).
  { rewrite Hppc, Hwidth, Href. reflexivity. }
  split; [exact Hscale|].
  destruct (size (minAreaRect (target_contour m))) as [w h]. simpl in Htarget.
  apply target_dimensions_inv in Hdim. destruct Hdim as [_ Hdim].
  clear Hfind Hppc Hrun.
  destruct (Py.ltb (h / pixels_per_cm m) (w / pixels_per_cm m)) eqn:Hcmp;
    injection Hdim as H1 H2; rewrite H1, H2;
    [apply PyFacts.ltb_lt in Hcmp | apply PyFacts.ltb_ge in Hcmp];
    rewrite Hscale in Hcmp |- *;
    destruct Htarget as [[Hw Hh]|[Hw Hh]]; rewrite Hw, Hh in Hcmp |- *;
    try (split; reflexivity);
    exfalso; revert Hcmp; vm_compute; intro Hcmp;
    try discriminate; apply Hcmp; reflexivity.
Qed.

(** C4.  When the search leaves with a reference, the scale is the short
    side of its fitted box, the smaller of the two sides, divided by the
    declared width; the division took place, so the width was not zero. *)
Theorem calibration_scale (refw : Q) (contours : list Contour)
  (cnt : Contour) (pts : BoxPts) (ppc : Q)
  (Hfound : find_reference refw contours = RefFound cnt pts ppc) :
  ppc = short_side cnt / refw /\
  ~ refw == 0 /\
  short_side cnt <= fst (size (minAreaRect cnt)) /\
  short_side cnt <= snd (size (minAreaRect cnt)) /\
  short_side cnt <= long_side cnt.
Proof.
  pose proof (find_reference_spec refw contours) as Hspec.
  rewrite Hfound in Hspec.
  destruct Hspec as (pre & post & _ & _ & _ & _ & Hppc & Hnz).
  split; [exact Hppc|]. split; [exact Hnz|].
  split; [apply Q.le_min_l|]. split; [apply Q.le_min_r|].
  apply short_le_long.
Qed.

(** C5.  In a run that reaches the end, the first dimension is at most the
    second, and the pair does not depend on the order in which the fitted
    box reports its two sides. *)
Theorem dimensions_ascending (image_path : string) (refw : Q)
  (m : Measurement Contour BoxPts)
  (Hrun : outcome (calculate_dimensions image_path refw) = Measured m) :
  dim1 m <= dim2 m /\
  exists d1 d2,
    target_dimensions (pixels_per_cm m)
      (snd (size (minAreaRect (target_contour m))),
       fst (size (minAreaRect (target_contour m)))) = inr (d1, d2) /\
    d1 == dim1 m /\ d2 == dim2 m.
Proof.
  destruct (calculate_dimensions_inv _ _ _ Hrun)
    as (image & _ & _ & _ & _ & Hdim & _).
  destruct (size (minAreaRect (target_contour m))) as [w h]. cbn [fst snd].
  apply target_dimensions_inv in Hdim. destruct Hdim as [Hnz Hdim].
  rewrite (target_dimensions_value _ h w Hnz).
  set (a := w / pixels_per_cm m) in *. set (b := h / pixels_per_cm m) in *.
  destruct (Py.ltb b a) eqn:Hba; injection Hdim as -> ->;
    destruct (Py.ltb a b) eqn:Hab;
    repeat match goal with
           | H : Py.ltb _ _ = true |- _ => apply PyFacts.ltb_lt in H
           | H : Py.ltb _ _ = false |- _ => apply PyFacts.ltb_ge in H
           end.
  - exfalso. apply (Qlt_irrefl a). apply (Qlt_trans _ _ _ Hab Hba).
  - split; [apply Qlt_le_weak, Hba|].
    exists b, a. repeat split; reflexivity.
  - split; [exact Hba|]. exists a, b. repeat split; reflexivity.
  - split; [exact Hba|]. exists b, a.
    split; [reflexivity|]. split; apply Qle_antisym; assumption.
Qed.

(** C6.  A contour whose fitted box has a zero-length side is passed over
    by the loop: the search goes on with the contours after it, whatever
    they are, and it never comes back with such a contour. *)
Theorem degenerate_box_is_skipped (refw : Q) (cnt : Contour)
  (rest : list Contour) (Hzero : degenerate cnt) :
  find_reference refw (cnt :: rest) = find_reference refw rest /\
  forall contours pts ppc,
    find_reference refw contours <> RefFound cnt pts ppc.
Proof.
  pose proof (degenerate_out_of_band cnt Hzero) as Hout.
  split; [apply find_reference_skip, Hout|].
  intros contours pts ppc Hfound.
  pose proof (find_reference_spec refw contours) as Hspec.
  rewrite Hfound in Hspec.
  destruct Hspec as (pre & post & _ & _ & Hin & _). exact (Hout Hin).
Qed.

(** C7.  A readable image with fewer than two contours: the run prints the
    not-enough-contours error and returns; nothing else is printed, drawn,
    saved or logged. *)
Theorem too_few_contours (image_path : string) (refw : Q) (image : Image)
  (Hread : imread image_path = Some image)
  (Hfew : (List.length (findContours image) < 2)%nat) :
  calculate_dimensions image_path refw =
  mkRun [ErrorNotEnoughContours] (Stopped NotEnoughContours).
Proof.
  unfold calculate_dimensions. rewrite Hread.
  apply Nat.ltb_lt in Hfew. rewrite Hfew. reflexivity.
Qed.

(** C8.  A run that reaches the reference search (readable image, two
    contours or more) with no contour in the band prints the
    reference-not-found error once and returns: no scale, no dimensions,
    nothing drawn, saved or logged. *)
Theorem no_reference_in_band (image_path : string) (refw : Q)
  (image : Image)
  (Hread : imread image_path = Some image)
  (Htwo : (2 <= List.length (findContours image))%nat)
  (Hnone : Forall (fun c => ~ in_band c) (findContours image)) :
  calculate_dimensions image_path refw =
  mkRun [ErrorReferenceNotFound] (Stopped ReferenceNotFound).
Proof.
  unfold calculate_dimensions. rewrite Hread.
  apply Nat.ltb_ge in Htwo. rewrite Htwo.
  pose proof (find_reference_spec refw
                (Py.sorted contourArea true (findContours image))) as Hspec.
  assert (Hall : Forall (fun c => ~ in_band c)
                   (Py.sorted contourArea true (findContours image))).
  { rewrite Forall_forall in *. intros c Hc. apply Hnone.
    apply (Permutation_in c (PyFacts.sorted_perm contourArea true _) Hc). }
  destruct (find_reference refw _) as [cnt pts ppc| |e].
  - exfalso. destruct Hspec as (pre & post & Heq & _ & Hin & _).
    rewrite Forall_forall in Hall. apply (Hall cnt); [|exact Hin].
    rewrite Heq. apply in_elt.
  - reflexivity.
  - exfalso. destruct Hspec as (_ & _ & Hex).
    apply Exists_exists in Hex. destruct Hex as (c & Hc & Hin).
    rewrite Forall_forall in Hall. exact (Hall c Hc Hin).
Qed.

(** C10.  No run ends in an [IndexError]: once the length check is passed
    the sorted list has a second element, so target selection returns a
    contour whichever branch it takes. *)
Theorem second_contour_in_bounds (image_path : string) (refw : Q) :
  outcome (calculate_dimensions image_path refw) <> Raised Py.IndexError /\
  forall image ref,
    imread image_path = Some image ->
    (List.length (findContours image) <? 2)%nat = false ->
    nth_error (boundaries image_path) 1 <> None /\
    exists target, select_target (boundaries image_path) ref = inr target.
Proof.
  split.
  - unfold calculate_dimensions.
    destruct (imread image_path) as [image|]; [|discriminate].
    destruct (List.length (findContours image) <? 2)%nat eqn:Hlen;
      [discriminate|].
    destruct (sorted_two _ Hlen) as (c0 & c1 & rest & Hs).
    pose proof (find_reference_spec refw
                  (Py.sorted contourArea true (findContours image))) as Hspec.
    destruct (find_reference refw _) as [r pts ppc| |e].
    + rewrite Hs, select_target_two.
      set (t := if Py.ltb _ _ then c1 else c0). clearbody t.
      destruct (size (minAreaRect t)) as [w h].
      unfold target_dimensions.
      destruct (Py.div w ppc); [|discriminate].
      destruct (Py.div h ppc); [|discriminate].
      rewrite PyFacts.sorted_pair.
      destruct (image_shape image) as [ih iw].
      destruct (Py.ltb _ _); cbv iota beta;
        destruct (display_size ih iw) as [[dw dh]|]; discriminate.
    + discriminate.
    + destruct Hspec as (-> & _). discriminate.
  - intros image ref Hread Hlen.
    rewrite (boundaries_readable _ _ Hread).
    destruct (sorted_two _ Hlen) as (c0 & c1 & rest & ->).
    split; [discriminate|].
    rewrite select_target_two. eauto.
Qed.

End Claims.

(** ** Concrete runs *)

(** Contours of equal area keep the order in which they were reported. *)
Example sorted_keeps_ties_in_order :
  Py.sorted Scene.area true
    [Scene.shape 5 1 1; Scene.shape 5 2 2; Scene.shape 7 3 3]
  = [Scene.shape 7 3 3; Scene.shape 5 1 1; Scene.shape 5 2 2].
Proof. reflexivity. Qed.

(** The card is found although the book is larger and comes first. *)
Example desk_run :
  Scene.run Scene.desk 5 =
  mkRun
    (InfoReferenceFound (100 / 5)
       :: ResultDimensions (150 / (100 / 5)) (300 / (100 / 5))
       :: report Scene.file Scene.desk_measurement ++ [ShowImage 640 480])
    (Measured Scene.desk_measurement).
Proof. reflexivity. Qed.

(** A declared width of zero makes the scale division raise, outside the
    [try] block. *)
Example zero_width_raises :
  Scene.run Scene.desk 0 = mkRun [] (Raised Py.ZeroDivisionError).
Proof. reflexivity. Qed.

(** An unreadable file stops the run at once. *)
Example unreadable_file :
  @calculate_dimensions _ _ _ (Scene.camera Scene.desk) "missing.png" 5 =
  mkRun [ErrorCouldNotRead "missing.png"] (Stopped CouldNotRead).
Proof. reflexivity. Qed.

(** The literal [1.1] is the binary64 number 0x1.199999999999ap+0, and an
    integer half-way between two floats goes to the even one. *)
Example rounding_samples :
  Py.lit 1.1 == 2476979795053773 # 2251799813685248 /\
  Py.float_of_int 9007199254740993 == 9007199254740992 /\
  Py.float_of_int 9007199254740995 == 9007199254740996 /\
  Py.round (1 # 3) == 6004799503160661 # 18014398509481984.
Proof. repeat split; vm_compute; reflexivity. Qed.

(** The product of the area test for an area of 100 is just above 110. *)
Example area_test_at_100 :
  Py.mul 100 (Py.lit 1.1) == 7740561859543041 # 70368744177664 /\
  110 < Py.mul 100 (Py.lit 1.1).
Proof. split; vm_compute; reflexivity. Qed.

(** On the desk the book has far more than 1.1 times the area of the card
    and is the target. *)
Example desk_takes_the_largest :
  @select_target _ _ _ (Scene.camera Scene.desk)
    [Scene.book; Scene.card] Scene.card = inr Scene.book.
Proof. vm_compute. reflexivity. Qed.



(** The desk scene is the worked example. *)
Lemma worked_example_witness :
  outcome (Scene.run Scene.desk 5) = Measured Scene.desk_measurement /\
  pixels_per_cm Scene.desk_measurement == 20 /\
  dim1 Scene.desk_measurement == 7.5 /\
  dim2 Scene.desk_measurement == 15.
Proof.
  split; [reflexivity|].
  apply (@worked_example _ _ _ (Scene.camera Scene.desk)
           Scene.file 5 Scene.desk_measurement).
  - reflexivity.
  - reflexivity.
  - reflexivity.
  - left. split; reflexivity.
Defined.

(** The scale of the card: 100 pixels over 5 units. *)
Lemma calibration_scale_witness :
  100 / 5 = @short_side _ _ _ (Scene.camera Scene.desk) Scene.card / 5 /\
  ~ 5 == 0 /\
  @short_side _ _ _ (Scene.camera Scene.desk) Scene.card <= 160 /\
  @short_side _ _ _ (Scene.camera Scene.desk) Scene.card <= 100 /\
  @short_side _ _ _ (Scene.camera Scene.desk) Scene.card
    <= @long_side _ _ _ (Scene.camera Scene.desk) Scene.card.
Proof.
  apply (@calibration_scale _ _ _ (Scene.camera Scene.desk) 5
           [Scene.book; Scene.card] Scene.card (160, 100) (100 / 5)).
  reflexivity.
Defined.

(** The dimensions of the book, and of the book with its sides swapped. *)
Lemma dimensions_ascending_witness :
  dim1 Scene.desk_measurement <= dim2 Scene.desk_measurement /\
  exists d1 d2,
    target_dimensions (100 / 5) (150, 300) = inr (d1, d2) /\
    d1 == dim1 Scene.desk_measurement /\ d2 == dim2 Scene.desk_measurement.
Proof.
  apply (@dimensions_ascending _ _ _ (Scene.camera Scene.desk)
           Scene.file 5 Scene.desk_measurement).
  reflexivity.
Defined.

(** A sliver in front of the card does not stop the search. *)
Lemma degenerate_box_is_skipped_witness :
  @find_reference _ _ _ (Scene.camera Scene.desk) 5
    [Scene.sliver; Scene.card]
  = @find_reference _ _ _ (Scene.camera Scene.desk) 5 [Scene.card] /\
  forall contours pts ppc,
    @find_reference _ _ _ (Scene.camera Scene.desk) 5 contours
    <> RefFound Scene.sliver pts ppc.
Proof.
  apply (@degenerate_box_is_skipped _ _ _ (Scene.camera Scene.desk) 5
           Scene.sliver [Scene.card]).
  right. reflexivity.
Defined.

(** A card alone on the table. *)
Lemma too_few_contours_witness :
  Scene.run Scene.lonely 5 =
  mkRun [ErrorNotEnoughContours] (Stopped NotEnoughContours).
Proof.
  apply (@too_few_contours _ _ _ (Scene.camera Scene.lonely)
           Scene.file 5 Scene.lonely).
  - reflexivity.
  - simpl. lia.
Defined.

(** Two objects, none of them card-shaped. *)
Lemma no_reference_in_band_witness :
  Scene.run Scene.cardless 5 =
  mkRun [ErrorReferenceNotFound] (Stopped ReferenceNotFound).
Proof.
  apply (@no_reference_in_band _ _ _ (Scene.camera Scene.cardless)
           Scene.file 5 Scene.cardless).
  - reflexivity.
  - simpl. lia.
  - repeat constructor; intros (_ & _ & Hhi); revert Hhi;
      vm_compute; intro Hhi; discriminate.
Defined.

(** C9.  On a scene of two contours where the card is the second-largest and
    the largest has less than 1.1 times its area, the run does not fail: it
    ends normally and the contour it measures is the reference itself. *)
Theorem reference_reused_as_target :
  exists m,
    outcome (Scene.run Scene.crowded 5.4) = Measured m /\
    ref_contour m = Scene.small_card /\
    target_contour m = Scene.small_card /\
    dim1 m == 5.4 /\ dim2 m == 8.64 /\
    In (ResultDimensions (dim1 m) (dim2 m))
       (printed (Scene.run Scene.crowded 5.4)).
Proof.
  exists Scene.crowded_measurement.
  split; [vm_compute; reflexivity|].
  split; [reflexivity|]. split; [reflexivity|].
  split; [vm_compute; reflexivity|]. split; [vm_compute; reflexivity|].
  vm_compute. right. left. reflexivity.
Qed.

(** ** Further facts about whole runs *)

Section Outcomes.

Context {Image Contour BoxPts : Type} {cv : OpenCV Image Contour BoxPts}.

(** The two sides of a box in the band are strictly positive. *)
Lemma in_band_positive (cnt : Contour) :
  in_band cnt -> 0 < short_side cnt /\ 0 < long_side cnt.
Proof.
  intros (Hnz & Hlo & _).
  pose proof (short_le_long cnt) as Hle.
  pose proof (Qmult_div_r (long_side cnt) (short_side cnt) Hnz) as Hmul.
  set (s := short_side cnt) in *. set (l := long_side cnt) in *.
  set (r := l / s) in *.
  assert (Hs : 0 < s).
  { destruct (Qlt_le_dec 0 s) as [Hpos|Hneg]; [exact Hpos|].
    exfalso. assert (Hlt : s < 0).
    { apply Qle_lteq in Hneg. destruct Hneg as [Hlt|Heq]; [exact Hlt|].
      exfalso. apply Hnz. exact Heq. }
    assert (H1 : r * s < 1.5 * s).
    { setoid_replace (r * s) with (- (r * - s)) by ring.
      setoid_replace (1.5 * s) with (- (1.5 * - s)) by ring.
      apply Qopp_lt_compat. apply Qmult_lt_compat_r; [lra | exact Hlo]. }
    assert (Hc : s * r == r * s) by ring.
    rewrite Hc in Hmul. rewrite Hmul in H1. lra. }
  split; [exact Hs|]. lra.
Qed.

(** What a run does once the image is read and has two contours or more,
    by the way the reference search ends. *)
Lemma calculate_dimensions_cases (image_path : string) (refw : Q)
  (image : Image) :
  imread image_path = Some image ->
  (List.length (findContours image) <? 2)%nat = false ->
  match find_reference refw (boundaries image_path) with
  | RefFound r pts ppc =>
      exists m,
        ref_contour m = r /\ ref_box_pts m = pts /\ pixels_per_cm m = ppc /\
        (outcome (calculate_dimensions image_path refw) = Measured m \/
         outcome (calculate_dimensions image_path refw) = Raised Py.Cv2Error)
  | RefNone =>
      calculate_dimensions image_path refw =
      mkRun [ErrorReferenceNotFound] (Stopped ReferenceNotFound)
  | RefRaised e =>
      calculate_dimensions image_path refw = mkRun [] (Raised e)
  end.
Proof.
  intros Hread Hlen.
  pose proof (find_reference_spec refw (boundaries image_path)) as Hspec.
  rewrite (boundaries_readable _ _ Hread) in *.
  unfold calculate_dimensions. rewrite Hread, Hlen.
  destruct (sorted_two _ Hlen) as (c0 & c1 & rest & Hs).
  destruct (find_reference refw _) as [r pts ppc| |e]; try reflexivity.
  destruct Hspec as (pre & post & _ & _ & Hin & _ & -> & Hnz).
  rewrite Hs, select_target_two.
  set (t := if Py.ltb _ _ then c1 else c0). clearbody t.
  destruct (size (minAreaRect t)) as [w h].
  rewrite (target_dimensions_value _ w h (scale_nonzero r refw Hin Hnz)).
  destruct (image_shape image) as [ih iw].
  destruct (Py.ltb _ _); cbv iota beta;
    destruct (display_size ih iw) as [[dw dh]|]; cbn [outcome];
    match goal with
    | |- exists _, _ /\ _ /\ _ /\ (Measured ?m = _ \/ _) => exists m
    | |- exists _, _ /\ _ /\ _ /\ (Raised _ = _ \/ _) =>
        exists (mkMeasurement r pts (short_side r / refw) t
                  (boxPoints (minAreaRect t)) 0 0)
    end; cbn; auto.
Qed.

(** X1.  In a run that reaches the end, both sides of the reference box are
    strictly positive and the scale has the sign of the declared width. *)
Theorem scale_has_sign_of_width (image_path : string) (refw : Q)
  (m : Measurement Contour BoxPts)
  (Hrun : outcome (calculate_dimensions image_path refw) = Measured m) :
  0 < short_side (ref_contour m) /\
  0 < long_side (ref_contour m) /\
  (0 < refw -> 0 < pixels_per_cm m) /\
  (refw < 0 -> pixels_per_cm m < 0).
Proof.
  destruct (calculate_dimensions_inv _ _ _ Hrun)
    as (image & _ & _ & Hfind & _).
  pose proof (find_reference_spec refw (boundaries image_path)) as Hspec.
  rewrite Hfind in Hspec.
  destruct Hspec as (pre & post & _ & _ & Hin & _ & Hppc & Hnz).
  destruct (in_band_positive _ Hin) as [Hs Hl].
  split; [exact Hs|]. split; [exact Hl|].
  pose proof (Qmult_div_r (short_side (ref_contour m)) refw Hnz) as Hmul.
  rewrite <- Hppc in Hmul.
  set (s := short_side (ref_contour m)) in *.
  set (q := pixels_per_cm m) in *. clearbody s q.
  split; intro Hw.
  - destruct (Qlt_le_dec 0 q) as [Hq|Hq]; [exact Hq|]. exfalso.
    assert (q * refw <= 0 * refw)
      by (apply Qmult_le_compat_r; [exact Hq | lra]).
    lra.
  - destruct (Qlt_le_dec q 0) as [Hq|Hq]; [exact Hq|]. exfalso.
    assert (0 * (- refw) <= q * (- refw))
      by (apply Qmult_le_compat_r; [exact Hq | lra]).
    assert (q * - refw == - (q * refw)) by ring.
    lra.
Qed.

(** X2.  A run reaches the end only if the image is readable and has two
    contours or more, the declared width is not zero, and the image has a
    size that can be displayed; its reference is a contour of the image
    that lies in the band, and its target is a contour of the image. *)
Theorem measured_only_if (image_path : string) (refw : Q)
  (m : Measurement Contour BoxPts)
  (Hrun : outcome (calculate_dimensions image_path refw) = Measured m) :
  exists image,
    imread image_path = Some image /\
    (2 <= List.length (findContours image))%nat /\
    ~ refw == 0 /\
    In (ref_contour m) (findContours image) /\
    in_band (ref_contour m) /\
    In (target_contour m) (findContours image) /\
    display_size (fst (image_shape image)) (snd (image_shape image)) <> None.
Proof.
  assert (Hshow : exists image,
             imread image_path = Some image /\
             display_size (fst (image_shape image))
               (snd (image_shape image)) <> None).
  { revert Hrun. unfold calculate_dimensions.
    destruct (imread image_path) as [image|]; [|discriminate].
    destruct (List.length (findContours image) <? 2)%nat; [discriminate|].
    destruct (find_reference refw _) as [r pts ppc| |e]; try discriminate.
    destruct (select_target _ r) as [e|t]; [discriminate|].
    destruct (target_dimensions ppc _) as [e|[d1 d2]]; [discriminate|].
    destruct (image_shape image) as [h w] eqn:Hshape. intro Hrun.
    exists image. split; [reflexivity|]. rewrite Hshape. cbn [fst snd].
    intro Hnone. rewrite Hnone in Hrun. discriminate. }
  destruct Hshow as (image0 & Hread0 & Hshow).
  destruct (calculate_dimensions_inv _ _ _ Hrun)
    as (image & Hread & Hlen & Hfind & Hsel & _).
  rewrite Hread0 in Hread. injection Hread as <-.
  pose proof (find_reference_spec refw (boundaries image_path)) as Hspec.
  rewrite Hfind in Hspec.
  destruct Hspec as (pre & post & Heq & _ & Hin & _ & _ & Hnz).
  rewrite (boundaries_readable _ _ Hread0) in Heq, Hsel.
  assert (Hperm : forall c,
             In c (Py.sorted contourArea true (findContours image0)) ->
             In c (findContours image0))
    by (intro c; apply Permutation_in, PyFacts.sorted_perm).
  exists image0. split; [exact Hread0|].
  split; [apply Nat.ltb_ge, Hlen|]. split; [exact Hnz|].
  split; [apply Hperm; rewrite Heq; apply in_elt|].
  split; [exact Hin|]. split; [|exact Hshow].
  apply Hperm.
  destruct (sorted_two _ Hlen) as (c0 & c1 & rest & Hs).
  rewrite Hs in Hsel |- *. rewrite select_target_two in Hsel.
  injection Hsel as <-.
  destruct (Py.ltb _ _); simpl; auto.
Qed.

(** X3.  A declared width of zero is not rejected: on a readable image with
    two contours or more, one of them in the band, the run raises
    [ZeroDivisionError] at the scale division, before it has printed
    anything. *)
Theorem zero_width_raises_silently (image_path : string) (refw : Q)
  (image : Image)
  (Hzero : refw == 0)
  (Hread : imread image_path = Some image)
  (Htwo : (2 <= List.length (findContours image))%nat)
  (Hcard : Exists in_band (findContours image)) :
  calculate_dimensions image_path refw
  = mkRun [] (Raised Py.ZeroDivisionError).
Proof.
  apply Nat.ltb_ge in Htwo.
  pose proof (calculate_dimensions_cases _ refw _ Hread Htwo) as Hc.
  pose proof (find_reference_spec refw (boundaries image_path)) as Hspec.
  destruct (find_reference refw (boundaries image_path)) as [r pts ppc| |e].
  - exfalso. destruct Hspec as (pre & post & _ & _ & _ & _ & _ & Hnz).
    exact (Hnz Hzero).
  - exfalso. rewrite (boundaries_readable _ _ Hread) in Hspec.
    apply Exists_exists in Hcard. destruct Hcard as (c & Hc' & Hin).
    rewrite Forall_forall in Hspec. apply (Hspec c); [|exact Hin].
    apply (Permutation_in c
             (Permutation_sym (PyFacts.sorted_perm contourArea true _))).
    exact Hc'.
  - destruct Hspec as (-> & _). exact Hc.
Qed.

End Outcomes.

(** ** Which contours are chosen *)

Section Choices.

Context {Image Contour BoxPts : Type} {cv : OpenCV Image Contour BoxPts}.

Lemma sorted_after (R : Contour -> Contour -> Prop) (pre post : list Contour)
  (x : Contour) :
  StronglySorted R (pre ++ x :: post) -> Forall (R x) post.
Proof.
  induction pre as [|y pre IH]; simpl; intro Hs;
    apply StronglySorted_inv in Hs; destruct Hs as [Hs Hall].
  - exact Hall.
  - apply IH, Hs.
Qed.

(** X5.  When several contours are in the band, the reference is one of the
    largest area among them. *)
Theorem reference_is_largest_in_band (image_path : string) (refw : Q)
  (m : Measurement Contour BoxPts)
  (Hrun : outcome (calculate_dimensions image_path refw) = Measured m) :
  Forall (fun c => in_band c ->
                   contourArea c <= contourArea (ref_contour m))
         (boundaries image_path).
Proof.
  destruct (calculate_dimensions_inv _ _ _ Hrun)
    as (image & _ & _ & Hfind & _).
  pose proof (find_reference_spec refw (boundaries image_path)) as Hspec.
  rewrite Hfind in Hspec.
  destruct Hspec as (pre & post & Heq & Hpre & _).
  pose proof (boundaries_descending image_path) as Hdesc.
  unfold area_descending in Hdesc. rewrite Heq in Hdesc |- *.
  apply sorted_after in Hdesc.
  apply Forall_app. split.
  - eapply Forall_impl; [|exact Hpre]. intros c Hout Hin. contradiction.
  - constructor; [intros _; apply Qle_refl|].
    eapply Forall_impl; [|exact Hdesc]. intros c Hle _. exact Hle.
Qed.

(** X6.  When the reference is the largest contour, the target is the
    second-largest one, provided the area of the reference is positive; a
    reference of area zero is measured itself. *)
Theorem reference_largest_target_second (image_path : string) (refw : Q)
  (m : Measurement Contour BoxPts) (second : Contour) (rest : list Contour)
  (Hrun : outcome (calculate_dimensions image_path refw) = Measured m)
  (Hfirst : boundaries image_path = ref_contour m :: second :: rest) :
  (0 < contourArea (ref_contour m) -> target_contour m = second) /\
  (contourArea (ref_contour m) <= 0 -> target_contour m = ref_contour m).
Proof.
  destruct (calculate_dimensions_inv _ _ _ Hrun)
    as (image & _ & _ & _ & Hsel & _).
  rewrite Hfirst, select_target_two in Hsel. injection Hsel as Hsel.
  split; intro Ha.
  - pose proof (PyFacts.area_test_positive _ Ha) as Hlt.
    apply PyFacts.ltb_lt in Hlt. rewrite Hlt in Hsel. auto.
  - pose proof (PyFacts.area_test_nonpositive _ Ha) as Hge.
    apply PyFacts.ltb_ge in Hge. rewrite Hge in Hsel. auto.
Qed.

(** X9.  A contour outside the band changes nothing in the reference
    search, wherever it stands in the list: the search gives the same result
    without it. *)
Theorem out_of_band_contour_is_ignored (refw : Q) (before after : list Contour)
  (cnt : Contour) (Hout : ~ in_band cnt) :
  find_reference refw (before ++ cnt :: after)
  = find_reference refw (before ++ after).
Proof.
  induction before as [|c before IH]; simpl app.
  - apply find_reference_skip, Hout.
  - destruct (in_band_dec c) as [Hin|Hc].
    + rewrite !(find_reference_hit refw c _ Hin). reflexivity.
    + rewrite !(find_reference_skip refw c _ Hc). exact IH.
Qed.

(** X10.  The declared width has no part in the choice of the contours: two
    runs on the same image that reach the end, whatever their widths, have
    the same reference and the same target, with the same box points. *)
Theorem width_does_not_change_the_choice (image_path : string)
  (refw refw' : Q) (m m' : Measurement Contour BoxPts)
  (Hrun : outcome (calculate_dimensions image_path refw) = Measured m)
  (Hrun' : outcome (calculate_dimensions image_path refw') = Measured m') :
  ref_contour m' = ref_contour m /\
  target_contour m' = target_contour m /\
  ref_box_pts m' = ref_box_pts m /\
  target_box_pts m' = target_box_pts m.
Proof.
  destruct (calculate_dimensions_inv _ _ _ Hrun)
    as (image & Hread & Hlen & Hfind & Hsel & _ & Hpts).
  destruct (calculate_dimensions_inv _ _ _ Hrun')
    as (image' & Hread' & Hlen' & Hfind' & Hsel' & _ & Hpts').
  pose proof (find_reference_spec refw (boundaries image_path)) as Hspec.
  rewrite Hfind in Hspec.
  destruct Hspec as (pre & post & Heq & Hpre & Hin & Hbox & _).
  pose proof (find_reference_spec refw' (boundaries image_path)) as Hspec'.
  rewrite Hfind' in Hspec'.
  destruct Hspec' as (pre' & post' & _ & _ & _ & Hbox' & _ & Hnz').
  rewrite Heq in Hfind'.
  rewrite (find_reference_first refw' pre post _ Hnz' Hpre Hin) in Hfind'.
  injection Hfind' as Href _ _.
  assert (Htarget : target_contour m' = target_contour m).
  { rewrite <- Href, Hsel in Hsel'. injection Hsel' as Ht.
    symmetry. exact Ht. }
  split; [symmetry; exact Href|]. split; [exact Htarget|].
  split.
  - rewrite Hbox, Hbox', <- Href. reflexivity.
  - rewrite Hpts, Hpts', Htarget. reflexivity.
Qed.

(** X14.  When the area of the largest contour is not below the product of
    the area test and the reference has a positive area, the target is the
    largest contour, it is strictly larger than the reference, and so it is
    not the reference. *)
Theorem larger_target_is_not_the_reference (image_path : string) (refw : Q)
  (m : Measurement Contour BoxPts) (largest : Contour) (rest : list Contour)
  (Hrun : outcome (calculate_dimensions image_path refw) = Measured m)
  (Hfirst : boundaries image_path = largest :: rest)
  (Harea : 0 < contourArea (ref_contour m))
  (Hlarger : Py.mul (contourArea (ref_contour m)) (Py.lit 1.1)
             <= contourArea largest) :
  target_contour m = largest /\
  contourArea (ref_contour m) < contourArea (target_contour m) /\
  target_contour m <> ref_contour m.
Proof.
  destruct (calculate_dimensions_inv _ _ _ Hrun)
    as (image & Hread & Hlen & _ & Hsel & _).
  destruct (sorted_two _ Hlen) as (c0 & c1 & rest' & Hs).
  rewrite (boundaries_readable _ _ Hread), Hs in Hfirst, Hsel.
  injection Hfirst as <- _.
  rewrite select_target_two in Hsel.
  pose proof (PyFacts.area_test_positive _ Harea) as Habove.
  apply PyFacts.ltb_ge in Hlarger. rewrite Hlarger in Hsel.
  injection Hsel as <-. apply PyFacts.ltb_ge in Hlarger.
  split; [reflexivity|].
  assert (Hlt : contourArea (ref_contour m) < contourArea c0).
  { eapply Qlt_le_trans; [exact Habove | exact Hlarger]. }
  split; [exact Hlt|].
  intro Heq. rewrite Heq in Hlt. exact (Qlt_irrefl _ Hlt).
Qed.

End Choices.

(** ** When a run stops *)

Section Stops.

Context {Image Contour BoxPts : Type} {cv : OpenCV Image Contour BoxPts}.

(** X13.  Each early [return] is taken under exactly one condition, checked
    in this order: the file cannot be read; the image has fewer than two
    contours; the image has two contours or more and none is in the band. *)
Theorem stopped_iff (image_path : string) (refw : Q) :
  (outcome (calculate_dimensions image_path refw) = Stopped CouldNotRead
   <-> imread image_path = None) /\
  (outcome (calculate_dimensions image_path refw) = Stopped NotEnoughContours
   <-> exists image,
         imread image_path = Some image /\
         (List.length (findContours image) < 2)%nat) /\
  (outcome (calculate_dimensions image_path refw) = Stopped ReferenceNotFound
   <-> exists image,
         imread image_path = Some image /\
         (2 <= List.length (findContours image))%nat /\
         Forall (fun c => ~ in_band c) (findContours image)).
Proof.
  destruct (imread image_path) as [image|] eqn:Hread.
  - destruct (List.length (findContours image) <? 2)%nat eqn:Hlen.
    + assert (Hrun : calculate_dimensions image_path refw
                     = mkRun [ErrorNotEnoughContours]
                         (Stopped NotEnoughContours))
        by (unfold calculate_dimensions; rewrite Hread, Hlen; reflexivity).
      rewrite Hrun. simpl. apply Nat.ltb_lt in Hlen.
      split; [split; discriminate|].
      split; split; try discriminate.
      * intros _. exists image. split; [reflexivity | exact Hlen].
      * reflexivity.
      * intros (image' & [= <-] & Htwo & _). lia.
    + pose proof (calculate_dimensions_cases _ refw _ Hread Hlen) as Hc.
      pose proof (find_reference_spec refw (boundaries image_path)) as Hspec.
      rewrite (boundaries_readable _ _ Hread) in Hspec, Hc.
      apply Nat.ltb_ge in Hlen.
      assert (Hperm : forall c,
                 In c (Py.sorted contourArea true (findContours image))
                 <-> In c (findContours image)).
      { intro c. split; apply Permutation_in;
          [|symmetry]; apply PyFacts.sorted_perm. }
      destruct (find_reference refw _) as [r pts ppc| |e].
      * assert (Hns : forall why,
                   outcome (calculate_dimensions image_path refw)
                   <> Stopped why).
        { destruct Hc as (m & _ & _ & _ & [H|H]); intro why; rewrite H;
            discriminate. }
        destruct Hspec as (pre & post & Heq & _ & Hin & _).
        split; [split; [intro H; destruct (Hns _ H) | discriminate]|].
        split; split; try (intro H; destruct (Hns _ H)).
        -- intros (image' & [= <-] & Hfew). lia.
        -- intros (image' & [= <-] & _ & Hall). exfalso.
           rewrite Forall_forall in Hall. apply (Hall r); [|exact Hin].
           apply Hperm. rewrite Heq. apply in_elt.
      * rewrite Hc. simpl.
        split; [split; discriminate|].
        split; split; try discriminate.
        -- intros (image' & [= <-] & Hfew). lia.
        -- intros _. exists image. split; [reflexivity|].
           split; [exact Hlen|].
           rewrite Forall_forall in *. intros c Hc'. apply Hspec, Hperm, Hc'.
        -- reflexivity.
      * rewrite Hc. simpl. destruct Hspec as (_ & _ & Hex).
        split; [split; discriminate|].
        split; split; try discriminate.
        -- intros (image' & [= <-] & Hfew). lia.
        -- intros (image' & [= <-] & _ & Hall). exfalso.
           apply Exists_exists in Hex. destruct Hex as (c & Hc' & Hin).
           rewrite Forall_forall in Hall. apply (Hall c); [|exact Hin].
           apply Hperm, Hc'.
  - assert (Hrun : calculate_dimensions image_path refw
                   = mkRun [ErrorCouldNotRead image_path]
                       (Stopped CouldNotRead))
      by (unfold calculate_dimensions; rewrite Hread; reflexivity).
    rewrite Hrun. simpl.
    split; [split; reflexivity|].
    split; split; try discriminate.
    + intros (image' & Habs & _). discriminate.
    + intros (image' & Habs & _). discriminate.
Qed.

End Stops.

(** ** The displayed image *)

(** On a float that is not negative [int] is the floor. *)
Lemma int_is_floor (x : Q) : 0 <= x -> Py.int x = Qfloor x.
Proof.
  intro Hx. unfold Py.int. destruct x as [n d]. simpl.
  apply Z.quot_div_nonneg; [|reflexivity].
  unfold Qle in Hx. simpl in Hx. lia.
Qed.

Lemma float_of_int_bounds (n : Z) :
  (0 < n)%Z ->
  inject_Z n * (1 - 2 ^ (-53)) <= Py.float_of_int n /\
  Py.float_of_int n <= inject_Z n * (1 + 2 ^ (-53)).
Proof.
  intro Hn. apply PyFacts.round_bounds.
  change 0 with (inject_Z 0). rewrite <- Zlt_Qlt. exact Hn.
Qed.

(** The float product of the width and the ratio against the exact value
    of width times 900 over height: four rounding errors apart at most. *)
Lemma display_product_bounds (h w : Z) :
  (900 < h)%Z -> (1 <= w)%Z ->
  let exact := inject_Z w * (900 / inject_Z h) in
  let product :=
    Py.mul (Py.float_of_int w)
      (Py.round (Py.float_of_int 900 / Py.float_of_int h)) in
  let u := 2 ^ (-53) in
  exact * ((1 - u) * (1 - u) * (1 - u) / (1 + u)) <= product /\
  product <= exact * ((1 + u) * (1 + u) * (1 + u) / (1 - u)).
Proof.
  intros Hh Hw exact product u. subst exact product.
  assert (Hu : 0 < u) by apply PyFacts.pow2_positive.
  assert (Hu1 : u < 1) by (vm_compute; reflexivity).
  assert (HH : 0 < inject_Z h)
    by (change 0 with (inject_Z 0); rewrite <- Zlt_Qlt; lia).
  assert (HW : 0 < inject_Z w)
    by (change 0 with (inject_Z 0); rewrite <- Zlt_Qlt; lia).
  destruct (float_of_int_bounds h ltac:(lia)) as [Hhlo Hhhi].
  destruct (float_of_int_bounds w ltac:(lia)) as [Hwlo Hwhi].
  fold u in Hhlo, Hhhi, Hwlo, Hwhi.
  assert (HF : Py.float_of_int 900 == 900) by (vm_compute; reflexivity).
  set (H := inject_Z h) in *. set (W := inject_Z w) in *.
  set (Hf := Py.float_of_int h) in *. set (Wf := Py.float_of_int w) in *.
  set (F := Py.float_of_int 900) in *.
  set (cu := 1 - u) in *. set (du := 1 + u) in *.
  assert (Hcu : 0 < cu) by (unfold cu; lra).
  assert (Hdu : 0 < du) by (unfold du; lra).
  assert (HHcu : 0 < H * cu) by (apply Qmult_lt_0_compat; assumption).
  assert (HHdu : 0 < H * du) by (apply Qmult_lt_0_compat; assumption).
  assert (HWcu : 0 < W * cu) by (apply Qmult_lt_0_compat; assumption).
  assert (HHf : 0 < Hf) by lra.
  assert (HWf : 0 < Wf) by lra.
  set (A := 900 / H).
  assert (HA : 0 < A) by (apply Qlt_shift_div_l; [exact HH | lra]).
  (* the exact quotient of the two floats *)
  assert (Hqhi : F / Hf <= A / cu).
  { apply Qle_shift_div_r; [exact HHf|].
    apply Qle_trans with (A / cu * (H * cu)).
    - assert (E : A / cu * (H * cu) == 900) by (unfold A; field; lra).
      rewrite E, HF. apply Qle_refl.
    - apply Qmult_le_l; [|exact Hhlo].
      apply Qlt_shift_div_l; [exact Hcu | lra]. }
  assert (Hqlo : A / du <= F / Hf).
  { apply Qle_shift_div_l; [exact HHf|].
    apply Qle_trans with (A / du * (H * du)).
    - apply Qmult_le_l; [|exact Hhhi].
      apply Qlt_shift_div_l; [exact Hdu | lra].
    - assert (E : A / du * (H * du) == 900) by (unfold A; field; lra).
      rewrite E, HF. apply Qle_refl. }
  assert (HAdu : 0 < A / du) by (apply Qlt_shift_div_l; [exact Hdu | lra]).
  assert (Hq : 0 < F / Hf) by lra.
  set (q := F / Hf) in *.
  destruct (PyFacts.round_bounds q Hq) as [Hrlo Hrhi]. fold u in Hrlo, Hrhi.
  fold cu in Hrlo. fold du in Hrhi.
  set (r := Py.round q) in *.
  assert (Hqcu : 0 < q * cu) by (apply Qmult_lt_0_compat; assumption).
  assert (Hr : 0 < r) by lra.
  assert (Hx : 0 < Wf * r) by (apply Qmult_lt_0_compat; assumption).
  unfold Py.mul.
  destruct (PyFacts.round_bounds (Wf * r) Hx) as [Hplo Hphi].
  fold u in Hplo, Hphi. fold cu in Hplo. fold du in Hphi.
  set (p := Py.round (Wf * r)) in *.
  (* lower bound *)
  assert (L1 : A / du * cu <= r).
  { eapply Qle_trans; [|exact Hrlo].
    apply Qmult_le_compat_r; [exact Hqlo | lra]. }
  assert (L2 : W * cu * (A / du * cu) <= Wf * r).
  { apply Qmult_le_compat_nonneg; split; try lra.
    apply Qlt_le_weak, Qmult_lt_0_compat; assumption. }
  assert (L3 : W * cu * (A / du * cu) * cu <= Wf * r * cu)
    by (apply Qmult_le_compat_r; [exact L2 | lra]).
  (* upper bound *)
  assert (U1 : r <= A / cu * du).
  { eapply Qle_trans; [exact Hrhi|].
    apply Qmult_le_compat_r; [exact Hqhi | lra]. }
  assert (U2 : Wf * r <= W * du * (A / cu * du)).
  { apply Qmult_le_compat_nonneg; split; lra. }
  assert (U3 : Wf * r * du <= W * du * (A / cu * du) * du)
    by (apply Qmult_le_compat_r; [exact U2 | lra]).
  assert (E1 : W * A * (cu * cu * cu / du) == W * cu * (A / du * cu) * cu)
    by (field; lra).
  assert (E2 : W * A * (du * du * du / cu) == W * du * (A / cu * du) * du)
    by (field; lra).
  rewrite E1, E2. split; lra.
Qed.

(** X12.  An image at most 900 pixels high is shown as it is.  A taller one
    is shown at a height of exactly 900 and a width between 1 and its own,
    or not at all: [cv2.resize] raises when the new width is zero, which
    cannot happen when the height is below 900 times the width. *)
Theorem display_fits (h w : Z) (Hw : (1 <= w)%Z) :
  ((h <= max_display_height)%Z -> display_size h w = Some (w, h)) /\
  (forall dw dh,
      display_size h w = Some (dw, dh) ->
      dh = Z.min h max_display_height /\ (1 <= dw <= w)%Z) /\
  ((h < 2 ^ 50)%Z -> (h < 900 * w)%Z -> display_size h w <> None).
Proof.
  unfold display_size, max_display_height.
  destruct (h >? 900)%Z eqn:Hh.
  - apply Z.gtb_lt in Hh.
    destruct (display_product_bounds h w Hh Hw) as [Hlo Hhi].
    cbv zeta in Hlo, Hhi.
    set (p := Py.mul (Py.float_of_int w)
                (Py.round (Py.float_of_int 900 / Py.float_of_int h))) in *.
    set (u := 2 ^ (-53)) in *.
    set (lo := (1 - u) * (1 - u) * (1 - u) / (1 + u)) in *.
    set (hi := (1 + u) * (1 + u) * (1 + u) / (1 - u)) in *.
    assert (HH : 0 < inject_Z h)
      by (change 0 with (inject_Z 0); rewrite <- Zlt_Qlt; lia).
    assert (HW : 0 < inject_Z w)
      by (change 0 with (inject_Z 0); rewrite <- Zlt_Qlt; lia).
    assert (H901 : 901 <= inject_Z h)
      by (change 901 with (inject_Z 901); rewrite <- Zle_Qle; lia).
    set (H := inject_Z h) in *. set (W := inject_Z w) in *.
    assert (Hq : 0 < 900 / H) by (apply Qlt_shift_div_l; [exact HH | lra]).
    assert (Hq901 : 900 / H <= 900 # 901).
    { apply Qle_shift_div_r; [exact HH|]. lra. }
    assert (Hex : 0 < W * (900 / H))
      by (apply Qmult_lt_0_compat; assumption).
    assert (Hlo0 : 0 <= lo) by (vm_compute; discriminate).
    assert (Hhi0 : 0 <= hi) by (vm_compute; discriminate).
    assert (Hp0 : 0 <= p).
    { eapply Qle_trans; [|exact Hlo]. apply Qmult_le_0_compat; [lra|].
      exact Hlo0. }
    assert (HpW : p <= W).
    { eapply Qle_trans; [exact Hhi|].
      assert (Hk : (900 # 901) * hi <= 1) by (vm_compute; discriminate).
      assert (Hm : 900 / H * hi <= (900 # 901) * hi)
        by (apply Qmult_le_compat_r; assumption).
      assert (Hm' : W * (900 / H * hi) <= W * 1)
        by (apply Qmult_le_l; [exact HW | lra]).
      assert (E : W * (900 / H) * hi == W * (900 / H * hi)) by ring.
      rewrite E. lra. }
    assert (Hint : (0 <= Py.int p <= w)%Z).
    { rewrite (int_is_floor _ Hp0). split.
      - change 0%Z with (Qfloor 0). apply Qfloor_resp_le, Hp0.
      - apply Z.le_trans with (Qfloor (inject_Z w)).
        + apply Qfloor_resp_le, HpW.
        + rewrite Qfloor_Z. apply Z.le_refl. }
    split; [intro Habs; lia|]. split.
    + intros dw dh. destruct (Py.int p <=? 0)%Z eqn:Ht; [discriminate|].
      apply Z.leb_gt in Ht. intros [= <- <-]. lia.
    + intros Hbig Hwide.
      destruct (Py.int p <=? 0)%Z eqn:Ht; [|discriminate]. exfalso.
      apply Z.leb_le in Ht.
      assert (Hone : 1 <= p).
      { eapply Qle_trans; [|exact Hlo].
        assert (HL : 1 - (1 # 1125899906842624) <= lo)
          by (vm_compute; discriminate).
        assert (Hh1 : H + 1 <= 1125899906842624).
        { change 1 with (inject_Z 1) at 1. unfold H.
          rewrite <- inject_Z_plus.
          change 1125899906842624 with (inject_Z 1125899906842624).
          rewrite <- Zle_Qle.
          change (2 ^ 50)%Z with 1125899906842624%Z in Hbig. lia. }
        assert (Hw9 : H + 1 <= 900 * W).
        { change 1 with (inject_Z 1) at 1. change 900 with (inject_Z 900).
          unfold H, W. rewrite <- inject_Z_plus, <- inject_Z_mult.
          rewrite <- Zle_Qle. lia. }
        assert (Hex1 : (H + 1) / H <= W * (900 / H)).
        { assert (E : W * (900 / H) == 900 * W / H) by (field; lra).
          rewrite E. unfold Qdiv. apply Qmult_le_compat_r; [exact Hw9|].
          apply Qlt_le_weak, Qinv_lt_0_compat, HH. }
        assert (Hex2 : (H + 1) / H * lo <= W * (900 / H) * lo)
          by (apply Qmult_le_compat_r; assumption).
        eapply Qle_trans; [|exact Hex2].
        apply Qle_trans with ((H + 1) / H * (1 - (1 # 1125899906842624))).
        - assert (E : (H + 1) / H * (1 - (1 # 1125899906842624))
                      == 1 + (1 - (H + 1) * (1 # 1125899906842624)) / H)
            by (field; lra).
          rewrite E.
          assert (Hnum : 0 <= 1 - (H + 1) * (1 # 1125899906842624)) by lra.
          assert (Hfrac : 0 <= (1 - (H + 1) * (1 # 1125899906842624)) / H).
          { apply Qle_shift_div_l; [exact HH|]. lra. }
          lra.
        - apply Qmult_le_l; [|exact HL].
          apply Qlt_shift_div_l; [exact HH|]. lra. }
      assert (Hfl : (1 <= Qfloor p)%Z).
      { change 1%Z with (Qfloor 1). apply Qfloor_resp_le, Hone. }
      rewrite (int_is_floor _ Hp0) in Ht. lia.
  - rewrite Z.gtb_ltb in Hh. apply Z.ltb_ge in Hh.
    split; [reflexivity|]. split.
    + intros dw dh [= <- <-]. lia.
    + discriminate.
Qed.

(** ** Concrete runs for the further facts *)

Local Abbreviation desk_camera := (Scene.camera Scene.desk).
Local Abbreviation poster_camera := (Scene.camera Scene.poster).

(** A photo of 1160 by 1044 pixels is shown 999 wide, not 1000: the ratio
    900 / 1044 is rounded down. *)
Example display_of_1160_by_1044 :
  display_size 1044 1160 = Some (999, 900)%Z.
Proof. vm_compute. reflexivity. Qed.

(** A strip 49 pixels wide and 900 times as high cannot be shown: the
    product of 49 and the rounded 900 / 44100 is just below 1. *)
Example display_of_a_strip : display_size 44100 49 = None.
Proof. vm_compute. reflexivity. Qed.

(** The card on the desk, declared 5 wide: a positive scale. *)
Lemma scale_has_sign_of_width_witness :
  0 < @short_side _ _ _ desk_camera (ref_contour Scene.desk_measurement) /\
  0 < @long_side _ _ _ desk_camera (ref_contour Scene.desk_measurement) /\
  (0 < 5 -> 0 < pixels_per_cm Scene.desk_measurement) /\
  (5 < 0 -> pixels_per_cm Scene.desk_measurement < 0).
Proof.
  apply (@scale_has_sign_of_width _ _ _ desk_camera Scene.file 5
           Scene.desk_measurement).
  reflexivity.
Defined.

(** The run on the desk went through every check. *)
Lemma measured_only_if_witness :
  exists image,
    @imread _ _ _ desk_camera Scene.file = Some image /\
    (2 <= List.length (@findContours _ _ _ desk_camera image))%nat /\
    ~ 5 == 0 /\
    In Scene.card (@findContours _ _ _ desk_camera image) /\
    @in_band _ _ _ desk_camera Scene.card /\
    In Scene.book (@findContours _ _ _ desk_camera image) /\
    display_size (fst (@image_shape _ _ _ desk_camera image))
      (snd (@image_shape _ _ _ desk_camera image)) <> None.
Proof.
  apply (@measured_only_if _ _ _ desk_camera Scene.file 5
           Scene.desk_measurement).
  reflexivity.
Defined.

(** The desk with a declared width of zero. *)
Lemma zero_width_raises_silently_witness :
  Scene.run Scene.desk 0 = mkRun [] (Raised Py.ZeroDivisionError).
Proof.
  apply (@zero_width_raises_silently _ _ _ desk_camera Scene.file 0
           Scene.desk).
  - reflexivity.
  - reflexivity.
  - simpl. lia.
  - apply Exists_cons_hd. split.
    + intro H. vm_compute in H. discriminate.
    + split; vm_compute; reflexivity.
Defined.

(** On the desk the card is the only contour in the band. *)
Lemma reference_is_largest_in_band_witness :
  Forall (fun c => @in_band _ _ _ desk_camera c ->
                   Scene.area c <= Scene.area Scene.card)
         (@boundaries _ _ _ desk_camera Scene.file).
Proof.
  apply (@reference_is_largest_in_band _ _ _ desk_camera Scene.file 5
           Scene.desk_measurement).
  reflexivity.
Defined.

(** A big card as the largest contour: the book behind it is measured. *)
Lemma reference_largest_target_second_witness :
  (0 < Scene.area Scene.big_card ->
   target_contour Scene.poster_measurement = Scene.book) /\
  (Scene.area Scene.big_card <= 0 ->
   target_contour Scene.poster_measurement = Scene.big_card).
Proof.
  apply (@reference_largest_target_second _ _ _ poster_camera Scene.file 5
           Scene.poster_measurement Scene.book [Scene.blob]).
  - vm_compute. reflexivity.
  - vm_compute. reflexivity.
Defined.

(** A blob between the book and the card. *)
Lemma out_of_band_contour_is_ignored_witness :
  @find_reference _ _ _ desk_camera 5 ([Scene.book] ++ Scene.blob :: [Scene.card])
  = @find_reference _ _ _ desk_camera 5 ([Scene.book] ++ [Scene.card]).
Proof.
  apply (@out_of_band_contour_is_ignored _ _ _ desk_camera 5
           [Scene.book] [Scene.card] Scene.blob).
  intros (_ & _ & Hhi). revert Hhi. vm_compute. intro Hhi. discriminate.
Defined.

(** The desk with a declared width of 5 and of 10. *)
Lemma width_does_not_change_the_choice_witness :
  ref_contour Scene.desk_measurement_10
    = ref_contour Scene.desk_measurement /\
  target_contour Scene.desk_measurement_10
    = target_contour Scene.desk_measurement /\
  ref_box_pts Scene.desk_measurement_10
    = ref_box_pts Scene.desk_measurement /\
  target_box_pts Scene.desk_measurement_10
    = target_box_pts Scene.desk_measurement.
Proof.
  apply (@width_does_not_change_the_choice _ _ _ desk_camera Scene.file 5 10
           Scene.desk_measurement Scene.desk_measurement_10).
  - reflexivity.
  - reflexivity.
Defined.

(** A photo of 1200 by 1800 pixels is shown at 600 by 900. *)
Lemma display_fits_witness :
  ((1800 <= max_display_height)%Z ->
   display_size 1800 1200 = Some (1200, 1800)%Z) /\
  (forall dw dh,
      display_size 1800 1200 = Some (dw, dh) ->
      dh = Z.min 1800 max_display_height /\ (1 <= dw <= 1200)%Z) /\
  ((1800 < 2 ^ 50)%Z -> (1800 < 900 * 1200)%Z ->
   display_size 1800 1200 <> None).
Proof.
  apply (display_fits 1800 1200). discriminate.
Defined.

(** On the desk the book has more than 1.1 times the area of the card. *)
Lemma larger_target_is_not_the_reference_witness :
  target_contour Scene.desk_measurement = Scene.book /\
  Scene.area Scene.card < Scene.area (target_contour Scene.desk_measurement) /\
  target_contour Scene.desk_measurement <> ref_contour Scene.desk_measurement.
Proof.
  apply (@larger_target_is_not_the_reference _ _ _ desk_camera Scene.file 5
           Scene.desk_measurement Scene.book [Scene.card]).
  - reflexivity.
  - reflexivity.
  - reflexivity.
  - vm_compute. discriminate.
Defined.
